(** * The default [main] and [Tcl_AppInit] of tclsh (tclAppInit.c) and the
      platform stub declarations (tclPlatDecls.h)

    Both files are glue around the Tcl library.  The library itself is not
    part of the development: every routine of it that the glue calls is a
    field of [TclLibrary], and every theorem quantifies over all libraries.
    What the glue does is observed through the sequence of library calls it
    makes (with the arguments passed and the values returned) and through
    the value it returns, if it returns. *)

From Stdlib Require Import ZArith List String Bool Lia.
Import ListNotations.
Local Open Scope string_scope.
Local Open Scope Z_scope.
Local Open Scope list_scope.

(** ** Symbols and build configuration *)

(** The functions taking a [Tcl_Interp] pointer and returning [int] that
    tclAppInit.c names,
    either to call them or to hand them to [Tcl_StaticPackage]. *)
Inductive PackageInitProc : Type :=
| Tcl_Init
| Tclxttest_Init
| Tcltest_Init
| TclObjTest_Init
| Procbodytest_Init
| Procbodytest_SafeInit.

Definition PackageInitProc_eqb (p q : PackageInitProc) : bool :=
  match p, q with
  | Tcl_Init, Tcl_Init
  | Tclxttest_Init, Tclxttest_Init
  | Tcltest_Init, Tcltest_Init
  | TclObjTest_Init, TclObjTest_Init
  | Procbodytest_Init, Procbodytest_Init
  | Procbodytest_SafeInit, Procbodytest_SafeInit => true
  | _, _ => false
  end.

(** The preprocessor symbols tclAppInit.c tests.  The two [TCL_LOCAL_*]
    macros, when defined, expand to the name of a function. *)
Record BuildConfig : Type := {
  TCL_TEST : bool;
  TCL_XT_TEST : bool;
  DJGPP : bool;
  TCL_LOCAL_APPINIT : option string;
  TCL_LOCAL_MAIN_HOOK : option string
}.

(** [#ifndef TCL_LOCAL_APPINIT / #define TCL_LOCAL_APPINIT Tcl_AppInit]. *)
Definition local_appinit (cfg : BuildConfig) : string :=
  match TCL_LOCAL_APPINIT cfg with
  | Some f => f
  | None => "Tcl_AppInit"
  end.

Section Bootstrap.

(** [World] is the state of the process outside the glue (the interpreters
    among it), [Interp] the type of [Tcl_Interp *] handles, [Argv] the type
    of [char **] argument vectors.  The glue never looks inside any of
    them, so they stay abstract. *)
Variables World Interp Argv : Type.

(** What tcl.h and the library provide.  The three constants are macros of
    tcl.h; the routines return to their caller, except [lib_Main], which
    may not ([None]).  A function handed to the library is handed over by
    name: an initialisation routine as a [PackageInitProc], the application
    initialisation and the main hook as the name their macro expands to.
    What the library does with it is part of the routine's effect on the
    world. *)
Record TclLibrary : Type := {
  TCL_OK : Z;
  TCL_ERROR : Z;
  TCL_GLOBAL_ONLY : Z;
  lib_init : PackageInitProc -> Interp -> World -> Z * World;
  lib_StaticPackage :
    Interp -> string -> option PackageInitProc -> option PackageInitProc ->
    World -> World;
  lib_SetVar :
    Interp -> string -> string -> Z -> World -> option string * World;
  lib_XtToolkitInitialize : World -> World;
  lib_main_hook : string -> Z -> Argv -> World -> Z * (Z * Argv) * World;
  lib_Main : Z -> Argv -> string -> World -> option World
}.

(** ** Observable behaviour: calls into the library *)

Inductive Event : Type :=
| Ev_Init (p : PackageInitProc) (interp : Interp) (code : Z)
| Ev_StaticPackage (interp : Interp) (pkgName : string)
    (initProc safeInitProc : option PackageInitProc)
| Ev_SetVar (interp : Interp) (varName newValue : string) (flags : Z)
    (res : option string)
| Ev_XtToolkitInitialize
| Ev_MainHook (hook : string) (argc : Z) (argv : Argv) (code : Z)
| Ev_Main (argc : Z) (argv : Argv) (appInitProc : string).

(** A run: the calls made, in order, and the value returned with the world
    left behind, or [None] when control does not come back.  A call is
    logged when it is made, so a call that never returns is in the trace
    all the same. *)
Record Run (A : Type) : Type := mkRun {
  trace : list Event;
  outcome : option (A * World)
}.
Arguments mkRun {A} _ _.
Arguments trace {A} _.
Arguments outcome {A} _.

Definition M (A : Type) : Type := World -> Run A.

Definition ret {A : Type} (a : A) : M A :=
  fun w => mkRun [] (Some (a, w)).

Definition bind {A B : Type} (m : M A) (k : A -> M B) : M B :=
  fun w =>
    let r := m w in
    match outcome r with
    | None => mkRun (trace r) None
    | Some (a, w') =>
        let r' := k a w' in
        mkRun (trace r ++ trace r') (outcome r')
    end.

(** The value a run returned, without the world. *)
Definition returned {A : Type} (r : Run A) : option A :=
  match outcome r with
  | Some (a, _) => Some a
  | None => None
  end.

End Bootstrap.

Arguments TCL_OK {World Interp Argv} _.
Arguments TCL_ERROR {World Interp Argv} _.
Arguments TCL_GLOBAL_ONLY {World Interp Argv} _.
Arguments lib_init {World Interp Argv} _ _ _ _.
Arguments lib_StaticPackage {World Interp Argv} _ _ _ _ _ _.
Arguments lib_SetVar {World Interp Argv} _ _ _ _ _ _.
Arguments lib_XtToolkitInitialize {World Interp Argv} _ _.
Arguments lib_main_hook {World Interp Argv} _ _ _ _ _.
Arguments lib_Main {World Interp Argv} _ _ _ _ _.
Arguments Ev_Init {Interp Argv} _ _ _.
Arguments Ev_StaticPackage {Interp Argv} _ _ _ _.
Arguments Ev_SetVar {Interp Argv} _ _ _ _ _.
Arguments Ev_XtToolkitInitialize {Interp Argv}.
Arguments Ev_MainHook {Interp Argv} _ _ _ _.
Arguments Ev_Main {Interp Argv} _ _ _.
Arguments mkRun {World Interp Argv A} _ _.
Arguments trace {World Interp Argv A} _.
Arguments outcome {World Interp Argv A} _.
Arguments ret {World Interp Argv A} _ _.
Arguments bind {World Interp Argv A B} _ _ _.
Arguments returned {World Interp Argv A} _.

Declare Scope glue_scope.
Delimit Scope glue_scope with glue.
Notation "x <- m ;; k" := (bind m (fun x => k))
  (at level 61, m at next level, right associativity) : glue_scope.
Notation "m ;; k" := (bind m (fun _ => k))
  (at level 61, right associativity) : glue_scope.
Local Open Scope glue_scope.

Section Glue.

Context {World Interp Argv : Type}.
Variable L : TclLibrary World Interp Argv.
Variable cfg : BuildConfig.

(** *** The library calls, logged *)

(** [p(interp)] for one of the package initialisation routines. *)
Definition invoke (p : PackageInitProc) (interp : Interp)
    : M World Interp Argv Z :=
  fun w =>
    let '(code, w') := lib_init L p interp w in
    mkRun [Ev_Init p interp code] (Some (code, w')).

Definition Tcl_StaticPackage (interp : Interp) (pkgName : string)
    (initProc safeInitProc : option PackageInitProc)
    : M World Interp Argv unit :=
  fun w =>
    mkRun [Ev_StaticPackage interp pkgName initProc safeInitProc]
      (Some (tt, lib_StaticPackage L interp pkgName initProc safeInitProc w)).

Definition Tcl_SetVar (interp : Interp) (varName newValue : string)
    (flags : Z) : M World Interp Argv (option string) :=
  fun w =>
    let '(res, w') := lib_SetVar L interp varName newValue flags w in
    mkRun [Ev_SetVar interp varName newValue flags res] (Some (res, w')).

Definition XtToolkitInitialize : M World Interp Argv unit :=
  fun w =>
    mkRun [Ev_XtToolkitInitialize] (Some (tt, lib_XtToolkitInitialize L w)).

(** [hook(&argc, &argv)]: the hook may store new values through both
    pointers; they come back next to its return value. *)
Definition call_main_hook (hook : string) (argc : Z) (argv : Argv)
    : M World Interp Argv (Z * (Z * Argv)) :=
  fun w =>
    let '(code, args', w') := lib_main_hook L hook argc argv w in
    mkRun [Ev_MainHook hook argc argv code] (Some (code, args', w')).

Definition Tcl_Main (argc : Z) (argv : Argv) (appInitProc : string)
    : M World Interp Argv unit :=
  fun w =>
    mkRun [Ev_Main argc argv appInitProc]
      (match lib_Main L argc argv appInitProc w with
       | Some w' => Some (tt, w')
       | None => None
       end).

(** *** tclAppInit.c *)

(** [if (p(interp) == TCL_ERROR) { return TCL_ERROR; }] followed by the
    rest of the function body. *)
Definition return_if_error (p : PackageInitProc) (interp : Interp)
    (rest : M World Interp Argv Z) : M World Interp Argv Z :=
  code <- invoke p interp ;;
  if code =? TCL_ERROR L then ret (TCL_ERROR L) else rest.

(** [#ifdef] around statements of a function body. *)
Definition ifdef (defined : bool)
    (block : M World Interp Argv Z -> M World Interp Argv Z)
    (rest : M World Interp Argv Z) : M World Interp Argv Z :=
  if defined then block rest else rest.

(** [Tcl_AppInit], lines 109-169. *)
Definition Tcl_AppInit (interp : Interp) : M World Interp Argv Z :=
  return_if_error Tcl_Init interp (
  ifdef (TCL_TEST cfg) (fun rest =>
    ifdef (TCL_XT_TEST cfg) (return_if_error Tclxttest_Init interp) (
    return_if_error Tcltest_Init interp (
    Tcl_StaticPackage interp "Tcltest" (Some Tcltest_Init) None ;;
    return_if_error TclObjTest_Init interp (
    return_if_error Procbodytest_Init interp (
    Tcl_StaticPackage interp "procbodytest"
      (Some Procbodytest_Init) (Some Procbodytest_SafeInit) ;;
    rest))))) (
  Tcl_SetVar interp "tcl_rcFileName"
    (if DJGPP cfg then "~/tclsh.rc" else "~/.tclshrc")
    (TCL_GLOBAL_ONLY L) ;;
  ret (TCL_OK L))).

(** [main], lines 50-88.  The hook gets the addresses of [argc] and
    [argv]; its return value is dropped. *)
Definition main (argc : Z) (argv : Argv) : M World Interp Argv Z :=
  (if TCL_XT_TEST cfg then XtToolkitInitialize else ret tt) ;;
  args <- match TCL_LOCAL_MAIN_HOOK cfg with
          | Some hook =>
              r <- call_main_hook hook argc argv ;;
              ret (snd r)
          | None => ret (argc, argv)
          end ;;
  Tcl_Main (fst args) (snd args) (local_appinit cfg) ;;
  ret 0.

End Glue.


(** ** Reading traces *)

Section Traces.

Context {Interp Argv : Type}.

(** The package initialisation routines called, in call order. *)
Fixpoint init_calls (t : list (Event Interp Argv)) : list PackageInitProc :=
  match t with
  | [] => []
  | Ev_Init p _ _ :: t' => p :: init_calls t'
  | _ :: t' => init_calls t'
  end.

(** The variables set, in call order. *)
Fixpoint vars_set (t : list (Event Interp Argv)) : list string :=
  match t with
  | [] => []
  | Ev_SetVar _ varName _ _ _ :: t' => varName :: vars_set t'
  | _ :: t' => vars_set t'
  end.

(** Some initialisation routine returned [err]. *)
Definition init_failed (err : Z) (t : list (Event Interp Argv)) : Prop :=
  exists p interp, In (Ev_Init p interp err) t.

(** No initialisation routine returned [err]. *)
Definition inits_succeeded (err : Z) (t : list (Event Interp Argv)) : Prop :=
  forall p interp code, In (Ev_Init p interp code) t -> code <> err.

Fixpoint inits_succeededb (err : Z) (t : list (Event Interp Argv)) : bool :=
  match t with
  | [] => true
  | Ev_Init _ _ code :: t' => negb (code =? err) && inits_succeededb err t'
  | _ :: t' => inits_succeededb err t'
  end.

End Traces.

(** The initialisation routines of a build as the spec has them, a fixed
    list known from the build alone: [Tcl_Init], then, in a test build, the
    routines of the test packages ([Tclxttest_Init] only when the Xt tests
    are built too). *)
Definition init_sequence (cfg : BuildConfig) : list PackageInitProc :=
  Tcl_Init ::
  (if TCL_TEST cfg then
     (if TCL_XT_TEST cfg then [Tclxttest_Init] else []) ++
     [Tcltest_Init; TclObjTest_Init; Procbodytest_Init]
   else []).

(** The library calls of a build in the order [Tcl_AppInit] forwards to
    them: the initialisation routines of [init_sequence], with the two
    registrations of a test build where they stand (lines 113-135). *)
Inductive LibStep : Type :=
| Step_Init (p : PackageInitProc)
| Step_Register (pkgName : string)
    (initProc safeInitProc : option PackageInitProc).

Definition init_steps (cfg : BuildConfig) : list LibStep :=
  Step_Init Tcl_Init ::
  (if TCL_TEST cfg then
     (if TCL_XT_TEST cfg then [Step_Init Tclxttest_Init] else []) ++
     [Step_Init Tcltest_Init;
      Step_Register "Tcltest" (Some Tcltest_Init) None;
      Step_Init TclObjTest_Init;
      Step_Init Procbodytest_Init;
      Step_Register "procbodytest"
        (Some Procbodytest_Init) (Some Procbodytest_SafeInit)]
   else []).

(** Whether one of the initialisation routines among [steps] returns
    [TCL_ERROR] when the library runs them in order on [interp] from the
    world [w], each in the world its predecessors left.  This asks the
    library alone; no run of [Tcl_AppInit] is involved. *)
Fixpoint forwarded_init_fails {World Interp Argv : Type}
    (L : TclLibrary World Interp Argv) (interp : Interp)
    (steps : list LibStep) (w : World) : bool :=
  match steps with
  | [] => false
  | Step_Init p :: steps' =>
      (fst (lib_init L p interp w) =? TCL_ERROR L)
      || forwarded_init_fails L interp steps' (snd (lib_init L p interp w))
  | Step_Register pkgName initProc safeInitProc :: steps' =>
      forwarded_init_fails L interp steps'
        (lib_StaticPackage L interp pkgName initProc safeInitProc w)
  end.

(** Modelled from the spec: [Tcl_Main] itself (tclMain.c of the library) is
    not among the sources.  The spec says of it that this entry point does
    not return under normal operation, and the header comment of [main]
    says the same. *)
Definition Tcl_Main_never_returns {World Interp Argv : Type}
    (L : TclLibrary World Interp Argv) : Prop :=
  forall argc argv appInitProc w, lib_Main L argc argv appInitProc w = None.

(** The other case, which [main] provides for with its last statement. *)
Definition Tcl_Main_always_returns {World Interp Argv : Type}
    (L : TclLibrary World Interp Argv) : Prop :=
  forall argc argv appInitProc w, lib_Main L argc argv appInitProc w <> None.

(** * tclPlatDecls.h *)

Module PlatDecls.

(** The preprocessor symbols the header tests; [WIN] stands for
    [defined(__WIN32__) || defined(__CYGWIN__)]. *)
Record Defines : Type := {
  WIN : bool;
  MAC_OSX_TCL : bool;
  USE_TCL_STUBS : bool;
  USE_TCL_STUB_PROCS : bool
}.

(** The platform functions the header declares. *)
Inductive PlatFn : Type :=
| Tcl_WinUtfToTChar
| Tcl_WinTCharToUtf
| Tcl_MacOSXOpenBundleResources
| Tcl_MacOSXOpenVersionedBundleResources.

(** Whether the declaration of [f], its member of [TclPlatStubs] and its
    macro are compiled in. *)
Definition declared (d : Defines) (f : PlatFn) : bool :=
  match f with
  | Tcl_WinUtfToTChar | Tcl_WinTCharToUtf => WIN d
  | Tcl_MacOSXOpenBundleResources
  | Tcl_MacOSXOpenVersionedBundleResources => MAC_OSX_TCL d
  end.

(** The number the header writes next to each declaration, member and
    macro. *)
Definition ordinal (f : PlatFn) : nat :=
  match f with
  | Tcl_WinUtfToTChar => 0
  | Tcl_WinTCharToUtf => 1
  | Tcl_MacOSXOpenBundleResources => 0
  | Tcl_MacOSXOpenVersionedBundleResources => 1
  end.

(** The function-pointer members of [struct TclPlatStubs], in declaration
    order, after [magic] and [hooks]. *)
Definition members (d : Defines) : list PlatFn :=
  (if WIN d then [Tcl_WinUtfToTChar; Tcl_WinTCharToUtf] else []) ++
  (if MAC_OSX_TCL d
   then [Tcl_MacOSXOpenBundleResources; Tcl_MacOSXOpenVersionedBundleResources]
   else []).

(** [#if defined(USE_TCL_STUBS) && !defined(USE_TCL_STUB_PROCS)]. *)
Definition stub_macros (d : Defines) : bool :=
  USE_TCL_STUBS d && negb (USE_TCL_STUB_PROCS d).

(** How a call written [f(...)] reaches its callee once the header has been
    read: through the linker's symbol [f], or, when the header has made [f]
    a macro, through the member [tcl_f] of the table [tclPlatStubsPtr]
    points to.  (The header leaves a name alone that is a macro already;
    the four names are taken not to be.) *)
Inductive CallForm : Type :=
| DirectLinked
| StubDispatched.

Definition call_form (d : Defines) (f : PlatFn) : CallForm :=
  if stub_macros d && declared d f then StubDispatched else DirectLinked.

Section Calls.

(** The C types of the signatures, and the memory the functions work on. *)
Variables CharPtr TCharPtr DStringPtr InterpPtr HooksPtr Mem : Type.

Definition Args (f : PlatFn) : Type :=
  match f with
  | Tcl_WinUtfToTChar => CharPtr * Z * DStringPtr
  | Tcl_WinTCharToUtf => TCharPtr * Z * DStringPtr
  | Tcl_MacOSXOpenBundleResources => InterpPtr * CharPtr * Z * Z * CharPtr
  | Tcl_MacOSXOpenVersionedBundleResources =>
      InterpPtr * CharPtr * CharPtr * Z * Z * CharPtr
  end%type.

Definition Result (f : PlatFn) : Type :=
  match f with
  | Tcl_WinUtfToTChar => TCharPtr
  | Tcl_WinTCharToUtf => CharPtr
  | Tcl_MacOSXOpenBundleResources => Z
  | Tcl_MacOSXOpenVersionedBundleResources => Z
  end.

(** What a function pointer of [f]'s type points to. *)
Definition Proc (f : PlatFn) : Type := Args f -> Mem -> Result f * Mem.

(** [struct TclPlatStubs]; a null pointer is [None]. *)
Record TclPlatStubs : Type := {
  magic : Z;
  hooks : option HooksPtr;
  tcl_WinUtfToTChar : option (Proc Tcl_WinUtfToTChar);
  tcl_WinTCharToUtf : option (Proc Tcl_WinTCharToUtf);
  tcl_MacOSXOpenBundleResources : option (Proc Tcl_MacOSXOpenBundleResources);
  tcl_MacOSXOpenVersionedBundleResources :
    option (Proc Tcl_MacOSXOpenVersionedBundleResources)
}.

(** The member the macro of [f] names. *)
Definition member (t : TclPlatStubs) (f : PlatFn) : option (Proc f) :=
  match f with
  | Tcl_WinUtfToTChar => tcl_WinUtfToTChar t
  | Tcl_WinTCharToUtf => tcl_WinTCharToUtf t
  | Tcl_MacOSXOpenBundleResources => tcl_MacOSXOpenBundleResources t
  | Tcl_MacOSXOpenVersionedBundleResources =>
      tcl_MacOSXOpenVersionedBundleResources t
  end.

(** What the names of the header are bound to in a running program: the
    variable [tclPlatStubsPtr], and for each function the definition the
    linker found, if any. *)
Record Program : Type := {
  tclPlatStubsPtr : option TclPlatStubs;
  symbol : forall f : PlatFn, option (Proc f)
}.

(** [(tclPlatStubsPtr->tcl_f)(args)]; [None] when a null pointer is
    dereferenced or called. *)
Definition indirect_call (env : Program) (f : PlatFn) (args : Args f)
    (m : Mem) : option (Result f * Mem) :=
  match tclPlatStubsPtr env with
  | Some t =>
      match member t f with
      | Some p => Some (p args m)
      | None => None
      end
  | None => None
  end.

(** A call of the linker's symbol [f]. *)
Definition direct_call (env : Program) (f : PlatFn) (args : Args f)
    (m : Mem) : option (Result f * Mem) :=
  match symbol env f with
  | Some p => Some (p args m)
  | None => None
  end.

(** The call [f(args)] of a translation unit compiled under [d].  Where
    the header does not declare [f] it defines no macro for it either, and
    the call reaches the linker's symbol, through an implicit
    declaration. *)
Definition call (d : Defines) (env : Program) (f : PlatFn) (args : Args f)
    (m : Mem) : option (Result f * Mem) :=
  match call_form d f with
  | StubDispatched => indirect_call env f args m
  | DirectLinked => direct_call env f args m
  end.

(** What the member of [f] leads to: nothing when [tclPlatStubsPtr] or the
    member is null. *)
Definition stub_slot (env : Program) (f : PlatFn) : option (Proc f) :=
  match tclPlatStubsPtr env with
  | Some t => member t f
  | None => None
  end.

(** The member of [f] and the linker's symbol [f] lead to functions that
    compute the same, or both lead nowhere. *)
Definition slot_agrees (env : Program) (f : PlatFn) : Prop :=
  match stub_slot env f, symbol env f with
  | Some p, Some q => forall args m, p args m = q args m
  | None, None => True
  | _, _ => False
  end.

End Calls.

Arguments magic {CharPtr TCharPtr DStringPtr InterpPtr HooksPtr Mem} _.
Arguments hooks {CharPtr TCharPtr DStringPtr InterpPtr HooksPtr Mem} _.
Arguments member {CharPtr TCharPtr DStringPtr InterpPtr HooksPtr Mem} _ _.
Arguments tclPlatStubsPtr
  {CharPtr TCharPtr DStringPtr InterpPtr HooksPtr Mem} _.
Arguments symbol {CharPtr TCharPtr DStringPtr InterpPtr HooksPtr Mem} _ _.
Arguments indirect_call {CharPtr TCharPtr DStringPtr InterpPtr HooksPtr Mem}
  _ _ _ _.
Arguments direct_call {CharPtr TCharPtr DStringPtr InterpPtr HooksPtr Mem}
  _ _ _ _.
Arguments call {CharPtr TCharPtr DStringPtr InterpPtr HooksPtr Mem} _ _ _ _ _.
Arguments stub_slot {CharPtr TCharPtr DStringPtr InterpPtr HooksPtr Mem} _ _.
Arguments slot_agrees {CharPtr TCharPtr DStringPtr InterpPtr HooksPtr Mem} _ _.

(** The same translation unit compiled without [USE_TCL_STUBS]. *)
Definition without_stubs (d : Defines) : Defines := {|
  WIN := WIN d;
  MAC_OSX_TCL := MAC_OSX_TCL d;
  USE_TCL_STUBS := false;
  USE_TCL_STUB_PROCS := USE_TCL_STUB_PROCS d
|}.

End PlatDecls.


(** ** More ways to read a trace *)

Section MoreTraces.

Context {Interp Argv : Type}.

(** The packages registered with [Tcl_StaticPackage], in call order: name,
    initialisation routine, safe initialisation routine. *)
Fixpoint registrations (t : list (Event Interp Argv))
    : list (string * option PackageInitProc * option PackageInitProc) :=
  match t with
  | [] => []
  | Ev_StaticPackage _ pkgName initProc safeInitProc :: t' =>
      (pkgName, initProc, safeInitProc) :: registrations t'
  | _ :: t' => registrations t'
  end.

(** An event is a call [Tcl_AppInit] may make on the interpreter
    [interp]: an initialisation, a registration or a [Tcl_SetVar], with
    that interpreter as its first argument. *)
Definition on_interp (interp : Interp) (e : Event Interp Argv) : Prop :=
  match e with
  | Ev_Init _ i _ => i = interp
  | Ev_StaticPackage i _ _ _ => i = interp
  | Ev_SetVar i _ _ _ _ => i = interp
  | _ => False
  end.

End MoreTraces.

(** The two registrations of a test build (lines 126-127 and 134-135). *)
Definition Tcltest_registration
    : string * option PackageInitProc * option PackageInitProc :=
  ("Tcltest", Some Tcltest_Init, None).

Definition procbodytest_registration
    : string * option PackageInitProc * option PackageInitProc :=
  ("procbodytest", Some Procbodytest_Init, Some Procbodytest_SafeInit).

(** * tclPlatDecls.h, read as the preprocessor reads it

    The header as a transformation of a translation unit: the macros
    defined so far and the declarations made so far.  Every directive of
    the file is here, in file order.  The text of a declaration is not
    kept, only what it declares; macros are not expanded inside it. *)

Module PlatDeclsHeader.

Import PlatDecls.

(** The macros defined, most recent first, each with its replacement
    text. *)
Definition Macros : Type := list (string * string).

Fixpoint lookup (n : string) (e : Macros) : option string :=
  match e with
  | [] => None
  | (k, body) :: e' => if String.eqb k n then Some body else lookup n e'
  end.

(** [defined(n)]. *)
Definition defined (n : string) (e : Macros) : bool :=
  match lookup n e with
  | Some _ => true
  | None => false
  end.

(** [#define n body]. *)
Definition define (n body : string) (e : Macros) : Macros := (n, body) :: e.

(** [#undef n]. *)
Fixpoint undef (n : string) (e : Macros) : Macros :=
  match e with
  | [] => []
  | (k, body) :: e' =>
      if String.eqb k n then undef n e' else (k, body) :: undef n e'
  end.

(** What the header declares.  A prototype carries the replacement text
    [TCL_STORAGE_CLASS] has where the prototype stands (the [EXTERN] in
    front of it is a macro of tcl.h built on [TCL_STORAGE_CLASS]); the
    struct carries its function-pointer members in order. *)
Inductive Decl : Type :=
| Typedef_TCHAR (base : string)
| ExternC_open
| ExternC_close
| Prototype (f : PlatFn) (storage : option string)
| Struct_TclPlatStubs (fields : list PlatFn)
| Extern_tclPlatStubsPtr.

Record TransUnit : Type := {
  macros : Macros;
  decls : list Decl
}.

Definition is_def (n : string) (s : TransUnit) : bool := defined n (macros s).

Definition def (n body : string) (s : TransUnit) : TransUnit :=
  {| macros := define n body (macros s); decls := decls s |}.

Definition undefine (n : string) (s : TransUnit) : TransUnit :=
  {| macros := undef n (macros s); decls := decls s |}.

Definition emit (d : Decl) (s : TransUnit) : TransUnit :=
  {| macros := macros s; decls := decls s ++ [d] |}.

(** The names of the four functions, of their members in the table, and
    of the macros that guard their prototypes. *)
Definition fn_name (f : PlatFn) : string :=
  match f with
  | Tcl_WinUtfToTChar => "Tcl_WinUtfToTChar"
  | Tcl_WinTCharToUtf => "Tcl_WinTCharToUtf"
  | Tcl_MacOSXOpenBundleResources => "Tcl_MacOSXOpenBundleResources"
  | Tcl_MacOSXOpenVersionedBundleResources =>
      "Tcl_MacOSXOpenVersionedBundleResources"
  end.

Definition member_name (f : PlatFn) : string :=
  match f with
  | Tcl_WinUtfToTChar => "tcl_WinUtfToTChar"
  | Tcl_WinTCharToUtf => "tcl_WinTCharToUtf"
  | Tcl_MacOSXOpenBundleResources => "tcl_MacOSXOpenBundleResources"
  | Tcl_MacOSXOpenVersionedBundleResources =>
      "tcl_MacOSXOpenVersionedBundleResources"
  end.

Definition declared_flag (f : PlatFn) : string :=
  (fn_name f ++ "_TCL_DECLARED")%string.

(** The replacement text of the macro of [f], lines 108-123. *)
Definition stub_expr (f : PlatFn) : string :=
  ("(tclPlatStubsPtr->" ++ member_name f ++ ")")%string.

(** Lines 13-22. *)
Definition storage_class_section (s : TransUnit) : TransUnit :=
  let s := undefine "TCL_STORAGE_CLASS" s in
  if is_def "BUILD_tcl" s then def "TCL_STORAGE_CLASS" "DLLEXPORT" s
  else if is_def "USE_TCL_STUBS" s then def "TCL_STORAGE_CLASS" "" s
  else def "TCL_STORAGE_CLASS" "DLLIMPORT" s.

(** Lines 28-35. *)
Definition tchar_section (s : TransUnit) : TransUnit :=
  if (is_def "_WIN32" s || is_def "__CYGWIN__" s)
     && negb (is_def "_TCHAR_DEFINED" s)
  then
    let s := if is_def "_UNICODE" s
             then emit (Typedef_TCHAR "wchar_t") s
             else emit (Typedef_TCHAR "char") s in
    def "_TCHAR_DEFINED" "" s
  else s.

(** [defined(__WIN32__) || defined(__CYGWIN__)], lines 47, 84 and 106. *)
Definition win (s : TransUnit) : bool :=
  is_def "__WIN32__" s || is_def "__CYGWIN__" s.

(** One guarded prototype, as in lines 48-53. *)
Definition declare (f : PlatFn) (s : TransUnit) : TransUnit :=
  if is_def (declared_flag f) s then s
  else
    let s := def (declared_flag f) "" s in
    emit (Prototype f (lookup "TCL_STORAGE_CLASS" (macros s))) s.

(** Lines 47-78. *)
Definition prototypes_section (s : TransUnit) : TransUnit :=
  let s := if win s
           then declare Tcl_WinTCharToUtf (declare Tcl_WinUtfToTChar s)
           else s in
  if is_def "MAC_OSX_TCL" s
  then declare Tcl_MacOSXOpenVersionedBundleResources
         (declare Tcl_MacOSXOpenBundleResources s)
  else s.

(** Lines 80-94. *)
Definition struct_section (s : TransUnit) : TransUnit :=
  let s :=
    emit (Struct_TclPlatStubs
            ((if win s then [Tcl_WinUtfToTChar; Tcl_WinTCharToUtf] else []) ++
             (if is_def "MAC_OSX_TCL" s
              then [Tcl_MacOSXOpenBundleResources;
                    Tcl_MacOSXOpenVersionedBundleResources]
              else []))) s in
  emit Extern_tclPlatStubsPtr s.

(** One guarded macro, as in lines 107-110. *)
Definition stub_macro (f : PlatFn) (s : TransUnit) : TransUnit :=
  if is_def (fn_name f) s then s else def (fn_name f) (stub_expr f) s.

(** Lines 100-127. *)
Definition macros_section (s : TransUnit) : TransUnit :=
  if is_def "USE_TCL_STUBS" s && negb (is_def "USE_TCL_STUB_PROCS" s)
  then
    let s := if win s
             then stub_macro Tcl_WinTCharToUtf (stub_macro Tcl_WinUtfToTChar s)
             else s in
    if is_def "MAC_OSX_TCL" s
    then stub_macro Tcl_MacOSXOpenVersionedBundleResources
           (stub_macro Tcl_MacOSXOpenBundleResources s)
    else s
  else s.

(** Lines 39-41 and 96-98. *)
Definition extern_C_open (s : TransUnit) : TransUnit :=
  if is_def "__cplusplus" s then emit ExternC_open s else s.

Definition extern_C_close (s : TransUnit) : TransUnit :=
  if is_def "__cplusplus" s then emit ExternC_close s else s.

(** Lines 131-132. *)
Definition restore_storage_class (s : TransUnit) : TransUnit :=
  def "TCL_STORAGE_CLASS" "DLLIMPORT" (undefine "TCL_STORAGE_CLASS" s).

(** The whole file, lines 10-134. *)
Definition tclPlatDecls_h (s : TransUnit) : TransUnit :=
  if is_def "_TCLPLATDECLS" s then s
  else
    let s := def "_TCLPLATDECLS" "" s in
    let s := storage_class_section s in
    let s := tchar_section s in
    let s := extern_C_open s in
    let s := prototypes_section s in
    let s := struct_section s in
    let s := extern_C_close s in
    let s := macros_section s in
    restore_storage_class s.

(** A translation unit that includes the header first thing, with the
    macros [e] defined before. *)
Definition include_first (e : Macros) : TransUnit :=
  tclPlatDecls_h {| macros := e; decls := [] |}.

(** The build of [PlatDecls] a set of macros stands for. *)
Definition defines_of (e : Macros) : Defines := {|
  WIN := defined "__WIN32__" e || defined "__CYGWIN__" e;
  MAC_OSX_TCL := defined "MAC_OSX_TCL" e;
  USE_TCL_STUBS := defined "USE_TCL_STUBS" e;
  USE_TCL_STUB_PROCS := defined "USE_TCL_STUB_PROCS" e
|}.

(** *** The header in closed form

    What the header declares, told from the macros defined where it is
    included, without going through the file. *)

(** The storage class the prototypes of the header get. *)
Definition storage_class_inside (e : Macros) : string :=
  if defined "BUILD_tcl" e then "DLLEXPORT"
  else if defined "USE_TCL_STUBS" e then ""
  else "DLLIMPORT".

Definition tchar_decls (e : Macros) : list Decl :=
  if (defined "_WIN32" e || defined "__CYGWIN__" e)
     && negb (defined "_TCHAR_DEFINED" e)
  then [Typedef_TCHAR (if defined "_UNICODE" e then "wchar_t" else "char")]
  else [].

Definition proto_decl (e : Macros) (f : PlatFn) : list Decl :=
  if defined (declared_flag f) e then []
  else [Prototype f (Some (storage_class_inside e))].

Definition header_decls (e : Macros) : list Decl :=
  tchar_decls e ++
  (if defined "__cplusplus" e then [ExternC_open] else []) ++
  flat_map (proto_decl e) (members (defines_of e)) ++
  [Struct_TclPlatStubs (members (defines_of e)); Extern_tclPlatStubsPtr] ++
  (if defined "__cplusplus" e then [ExternC_close] else []).

(** Whether a declaration names the type [TCHAR]: the prototypes of the
    two Windows functions do, and so does the struct when it has their
    members. *)
Definition uses_TCHAR (d : Decl) : bool :=
  match d with
  | Prototype Tcl_WinUtfToTChar _ | Prototype Tcl_WinTCharToUtf _ => true
  | Struct_TclPlatStubs fields =>
      existsb (fun f => match f with
                        | Tcl_WinUtfToTChar | Tcl_WinTCharToUtf => true
                        | _ => false
                        end) fields
  | _ => false
  end.

Definition is_Typedef_TCHAR (d : Decl) : bool :=
  match d with
  | Typedef_TCHAR _ => true
  | _ => false
  end.

(** Reads declarations in order and tells whether [TCHAR] is a known type
    wherever it is used; [known] says whether it is known at the start. *)
Fixpoint TCHAR_known_at_uses (known : bool) (ds : list Decl) : bool :=
  match ds with
  | [] => true
  | d :: ds' =>
      (negb (uses_TCHAR d) || known)
      && TCHAR_known_at_uses (known || is_Typedef_TCHAR d) ds'
  end.

End PlatDeclsHeader.

(** A Windows build of an extension: the compiler defines [_WIN32], tcl.h
    has defined [__WIN32__], the extension asks for the stubs, and a header
    read before has left [TCL_STORAGE_CLASS] at [DLLEXPORT]. *)
Definition win_extension_macros : PlatDeclsHeader.Macros :=
  [("USE_TCL_STUBS", ""); ("__WIN32__", ""); ("_WIN32", "");
   ("TCL_STORAGE_CLASS", "DLLEXPORT")].

(** The same with [__WIN32__] defined by hand on a compiler that does not
    define [_WIN32]. *)
Definition odd_win_macros : PlatDeclsHeader.Macros :=
  [("USE_TCL_STUBS", ""); ("__WIN32__", "")].

(** * Concrete instances to run the model on *)

(** A small library: status codes as in a stock tcl.h; the world is the
    list of global variables set so far.  [failing] tells which
    initialisation routines report an error, [setvar_ok] whether
    [Tcl_SetVar] manages to set the variable, [main_returns] whether
    [Tcl_Main] comes back. *)
Definition sample_library (failing : PackageInitProc -> bool)
    (setvar_ok main_returns : bool)
    : TclLibrary (list (string * string)) unit (list string) := {|
  TCL_OK := 0;
  TCL_ERROR := 1;
  TCL_GLOBAL_ONLY := 1;
  lib_init := fun p _ w => (if failing p then 1 else 0, w);
  lib_StaticPackage := fun _ _ _ _ w => w;
  lib_SetVar := fun _ varName newValue _ w =>
    if setvar_ok then (Some newValue, (varName, newValue) :: w)
    else (None, w);
  lib_XtToolkitInitialize := fun w => w;
  lib_main_hook := fun _ argc argv w => (0, (argc - 1, tl argv), w);
  lib_Main := fun _ _ _ w => if main_returns then Some w else None
|}.

Definition nothing_fails (p : PackageInitProc) : bool := false.

(** A library in which everything works and [Tcl_Main] exits the process. *)
Definition healthy_library
    : TclLibrary (list (string * string)) unit (list string) :=
  sample_library nothing_fails true false.

Definition plain_build : BuildConfig := {|
  TCL_TEST := false; TCL_XT_TEST := false; DJGPP := false;
  TCL_LOCAL_APPINIT := None; TCL_LOCAL_MAIN_HOOK := None
|}.

Definition test_build : BuildConfig := {|
  TCL_TEST := true; TCL_XT_TEST := true; DJGPP := false;
  TCL_LOCAL_APPINIT := None; TCL_LOCAL_MAIN_HOOK := None
|}.

Definition hooked_build : BuildConfig := {|
  TCL_TEST := false; TCL_XT_TEST := true; DJGPP := true;
  TCL_LOCAL_APPINIT := Some "My_AppInit";
  TCL_LOCAL_MAIN_HOOK := Some "My_MainHook"
|}.

(** A Windows program built against the stub table, in which the table has
    been filled with the functions the library exports. *)
Definition win_stubs_defines : PlatDecls.Defines := {|
  PlatDecls.WIN := true;
  PlatDecls.MAC_OSX_TCL := false;
  PlatDecls.USE_TCL_STUBS := true;
  PlatDecls.USE_TCL_STUB_PROCS := false
|}.

Definition sample_exports (f : PlatDecls.PlatFn)
    : PlatDecls.Proc string (list Z) nat unit (list string) f :=
  match f as f0
    return PlatDecls.Proc string (list Z) nat unit (list string) f0
  with
  | PlatDecls.Tcl_WinUtfToTChar =>
      fun args m => ([snd (fst args)], fst (fst args) :: m)
  | PlatDecls.Tcl_WinTCharToUtf =>
      fun args m => ("utf", "utf" :: m)
  | PlatDecls.Tcl_MacOSXOpenBundleResources =>
      fun args m => (0, m)
  | PlatDecls.Tcl_MacOSXOpenVersionedBundleResources =>
      fun args m => (0, m)
  end.

Definition sample_table
    : PlatDecls.TclPlatStubs string (list Z) nat unit unit (list string) := {|
  PlatDecls.magic := 0;
  PlatDecls.hooks := None;
  PlatDecls.tcl_WinUtfToTChar :=
    Some (sample_exports PlatDecls.Tcl_WinUtfToTChar);
  PlatDecls.tcl_WinTCharToUtf :=
    Some (sample_exports PlatDecls.Tcl_WinTCharToUtf);
  PlatDecls.tcl_MacOSXOpenBundleResources := None;
  PlatDecls.tcl_MacOSXOpenVersionedBundleResources := None
|}.

Definition sample_program
    : PlatDecls.Program string (list Z) nat unit unit (list string) := {|
  PlatDecls.tclPlatStubsPtr := Some sample_table;
  PlatDecls.symbol := fun f =>
    if PlatDecls.declared win_stubs_defines f
    then Some (sample_exports f) else None
|}.

(** A table left over from another library: the member of
    [Tcl_WinUtfToTChar] leads to a function that ignores its arguments. *)
Definition stale_table
    : PlatDecls.TclPlatStubs string (list Z) nat unit unit (list string) := {|
  PlatDecls.magic := 0;
  PlatDecls.hooks := None;
  PlatDecls.tcl_WinUtfToTChar := Some (fun _ m => ([], m));
  PlatDecls.tcl_WinTCharToUtf :=
    Some (sample_exports PlatDecls.Tcl_WinTCharToUtf);
  PlatDecls.tcl_MacOSXOpenBundleResources := None;
  PlatDecls.tcl_MacOSXOpenVersionedBundleResources := None
|}.

Definition stale_program
    : PlatDecls.Program string (list Z) nat unit unit (list string) := {|
  PlatDecls.tclPlatStubsPtr := Some stale_table;
  PlatDecls.symbol := PlatDecls.symbol sample_program
|}.

(** The same program before anything has set [tclPlatStubsPtr]. *)
Definition unset_program
    : PlatDecls.Program string (list Z) nat unit unit (list string) := {|
  PlatDecls.tclPlatStubsPtr := None;
  PlatDecls.symbol := PlatDecls.symbol sample_program
|}.

(** * Proof automation *)

(** One statement of [Tcl_AppInit] at a time: what a run that starts with
    a library call is, told from what the library returns. *)
Section Steps.

Context {World Interp Argv : Type}.
Variable L : TclLibrary World Interp Argv.

Lemma run_return_if_error (p : PackageInitProc) (interp : Interp)
    (rest : M World Interp Argv Z) (w : World) :
  return_if_error L p interp rest w =
  if fst (lib_init L p interp w) =? TCL_ERROR L
  then mkRun [Ev_Init p interp (fst (lib_init L p interp w))]
         (Some (TCL_ERROR L, snd (lib_init L p interp w)))
  else mkRun
         (Ev_Init p interp (fst (lib_init L p interp w))
          :: trace (rest (snd (lib_init L p interp w))))
         (outcome (rest (snd (lib_init L p interp w)))).
Proof.
  unfold return_if_error, bind, invoke, ret.
  destruct (lib_init L p interp w) as [code w']; cbn [fst snd trace outcome].
  destruct (code =? TCL_ERROR L); cbn [trace outcome app];
    [reflexivity|].
  destruct (rest w') as [t [[status w'']|]]; reflexivity.
Qed.

Lemma run_StaticPackage (interp : Interp) (pkgName : string)
    (initProc safeInitProc : option PackageInitProc)
    (rest : M World Interp Argv Z) (w : World) :
  bind (Tcl_StaticPackage L interp pkgName initProc safeInitProc)
    (fun _ => rest) w =
  mkRun
    (Ev_StaticPackage interp pkgName initProc safeInitProc
     :: trace
          (rest (lib_StaticPackage L interp pkgName initProc safeInitProc w)))
    (outcome
       (rest (lib_StaticPackage L interp pkgName initProc safeInitProc w))).
Proof.
  unfold bind, Tcl_StaticPackage; cbn [trace outcome app].
  destruct (rest _) as [t [[status w'']|]]; reflexivity.
Qed.

Lemma run_SetVar (interp : Interp) (varName newValue : string) (flags : Z)
    (status : Z) (w : World) :
  bind (Tcl_SetVar L interp varName newValue flags)
    (fun _ => ret status) w =
  mkRun
    [Ev_SetVar interp varName newValue flags
       (fst (lib_SetVar L interp varName newValue flags w))]
    (Some (status, snd (lib_SetVar L interp varName newValue flags w))).
Proof.
  unfold bind, Tcl_SetVar, ret.
  destruct (lib_SetVar L interp varName newValue flags w) as [res w'];
    reflexivity.
Qed.

End Steps.

(** Runs the next package initialisation call of the goal and splits on
    the test of its return code against [TCL_ERROR]. *)
Ltac step_init :=
  rewrite run_return_if_error;
  match goal with
  | |- context [lib_init ?L ?p ?i ?w] =>
      let c := fresh "code" in
      let w' := fresh "w" in
      let E := fresh "Hcall" in
      destruct (lib_init L p i w) as [c w'] eqn:E; cbn [fst snd];
      destruct (Z.eqb_spec c (TCL_ERROR L)); cbn [trace outcome]
  end.

Ltac step_register := rewrite run_StaticPackage; cbn [trace outcome].

Ltac step_setvar :=
  rewrite run_SetVar;
  match goal with
  | |- context [lib_SetVar ?L ?i ?n ?v ?f ?w] =>
      let r := fresh "res" in
      let w' := fresh "w" in
      destruct (lib_SetVar L i n v f w) as [r w']; cbn [fst snd trace outcome]
  end.

(** Runs [Tcl_AppInit] along every path of every build, one library call
    after the other. *)
Ltac run_AppInit cfg :=
  unfold Tcl_AppInit;
  destruct cfg as [test xt djgpp appinit hook];
  destruct test, xt;
  cbv beta iota delta [ifdef TCL_TEST TCL_XT_TEST DJGPP];
  repeat first [step_init | step_register | step_setvar];
  cbn.

(** The same with the library asked alongside: [forwarded_init_fails] is
    laid out first, so that each call is settled for both at once. *)
Ltac run_AppInit_with_library cfg :=
  unfold Tcl_AppInit;
  destruct cfg as [test xt djgpp appinit hook];
  destruct test, xt;
  cbv beta iota delta [ifdef TCL_TEST TCL_XT_TEST DJGPP];
  cbn [forwarded_init_fails init_steps app TCL_TEST TCL_XT_TEST];
  repeat first [step_init | step_register | step_setvar];
  cbn.

(** The same for [main]. *)
Ltac run_main cfg :=
  unfold main, bind, XtToolkitInitialize, call_main_hook, Tcl_Main, ret,
    local_appinit;
  destruct cfg as [test xt djgpp appinit hook]; cbn;
  destruct xt, hook; cbn;
  repeat match goal with
    | |- context [lib_main_hook ?L ?h ?c ?v ?w] =>
        destruct (lib_main_hook L h c v w) as [[? [? ?]] ?]; cbn
    end.

(** * Lemmas on traces *)

Section TraceLemmas.

Context {Interp Argv : Type}.

Lemma split_nil (e : Event Interp Argv) (pre post : list (Event Interp Argv)) :
  [] = pre ++ e :: post -> False.
Proof. destruct pre; discriminate. Qed.

Lemma split_cons (x e : Event Interp Argv)
    (l pre post : list (Event Interp Argv)) :
  x :: l = pre ++ e :: post ->
  (pre = [] /\ x = e /\ l = post) \/
  (exists pre', pre = x :: pre' /\ l = pre' ++ e :: post).
Proof.
  destruct pre as [|y pre']; simpl; intros H; injection H as -> ->.
  - left; auto.
  - right; eauto.
Qed.

Lemma inits_succeededb_sound (err : Z) (t : list (Event Interp Argv)) :
  inits_succeededb err t = true -> inits_succeeded err t.
Proof.
  unfold inits_succeeded.
  induction t as [|e t IH]; intros Hb p interp code Hin.
  - destruct Hin.
  - destruct Hin as [-> | Hin].
    + simpl in Hb. apply andb_prop in Hb as [Hc _].
      apply negb_true_iff, Z.eqb_neq in Hc. exact Hc.
    + apply (IH) with (p := p) (interp := interp); [|exact Hin].
      destruct e; simpl in Hb; try exact Hb.
      apply andb_prop in Hb as [_ Hb]. exact Hb.
Qed.

Lemma inits_succeededb_complete (err : Z) (t : list (Event Interp Argv)) :
  inits_succeeded err t -> inits_succeededb err t = true.
Proof.
  unfold inits_succeeded.
  induction t as [|e t IH]; intros H; [reflexivity|].
  assert (Ht : inits_succeededb err t = true).
  { apply IH. intros p i c Hin. apply (H p i c). right. exact Hin. }
  destruct e; simpl; try exact Ht.
  rewrite Ht, andb_true_r. apply negb_true_iff, Z.eqb_neq.
  apply (H p interp code). left. reflexivity.
Qed.

End TraceLemmas.

(** Enumerates the ways the concrete trace in [H] splits around one
    event. *)
Ltac split_trace H :=
  repeat
    (let He := fresh "He" in
     apply split_cons in H;
     destruct H as [(-> & He & <-) | (? & -> & H)];
     [ try discriminate He;
       try (injection He as <- <- ?; subst)
     | ]);
  try (apply split_nil in H; destruct H).

(** Offers everything but the last element of the concrete list [t] as the
    prefix an existential goal asks for. *)
Ltac all_but_last t := exists (removelast t); cbn.

(** * Running the model *)

Lemma init_sequence_plain (cfg : BuildConfig) :
  TCL_TEST cfg = false -> init_sequence cfg = [Tcl_Init].
Proof. unfold init_sequence; intros ->; reflexivity. Qed.

Lemma init_sequence_test (cfg : BuildConfig) :
  TCL_TEST cfg = true ->
  init_sequence cfg =
  if TCL_XT_TEST cfg
  then [Tcl_Init; Tclxttest_Init; Tcltest_Init; TclObjTest_Init;
        Procbodytest_Init]
  else [Tcl_Init; Tcltest_Init; TclObjTest_Init; Procbodytest_Init].
Proof.
  unfold init_sequence; intros ->; destruct (TCL_XT_TEST cfg); reflexivity.
Qed.

Example AppInit_plain_build :
  Tcl_AppInit healthy_library plain_build tt [] =
  mkRun [Ev_Init Tcl_Init tt 0;
         Ev_SetVar tt "tcl_rcFileName" "~/.tclshrc" 1 (Some "~/.tclshrc")]
        (Some (0, [("tcl_rcFileName", "~/.tclshrc")])).
Proof. reflexivity. Qed.

Example AppInit_test_build :
  trace (Tcl_AppInit healthy_library test_build tt []) =
  [Ev_Init Tcl_Init tt 0;
   Ev_Init Tclxttest_Init tt 0;
   Ev_Init Tcltest_Init tt 0;
   Ev_StaticPackage tt "Tcltest" (Some Tcltest_Init) None;
   Ev_Init TclObjTest_Init tt 0;
   Ev_Init Procbodytest_Init tt 0;
   Ev_StaticPackage tt "procbodytest"
     (Some Procbodytest_Init) (Some Procbodytest_SafeInit);
   Ev_SetVar tt "tcl_rcFileName" "~/.tclshrc" 1 (Some "~/.tclshrc")].
Proof. reflexivity. Qed.

Example AppInit_failing_TclObjTest :
  Tcl_AppInit
    (sample_library (PackageInitProc_eqb TclObjTest_Init) true false)
    test_build tt [] =
  mkRun [Ev_Init Tcl_Init tt 0;
         Ev_Init Tclxttest_Init tt 0;
         Ev_Init Tcltest_Init tt 0;
         Ev_StaticPackage tt "Tcltest" (Some Tcltest_Init) None;
         Ev_Init TclObjTest_Init tt 1]
        (Some (1, [])).
Proof. reflexivity. Qed.

Example AppInit_djgpp_build :
  vars_set (trace (Tcl_AppInit healthy_library hooked_build tt [])) =
    ["tcl_rcFileName"] /\
  outcome (Tcl_AppInit healthy_library hooked_build tt []) =
    Some (0, [("tcl_rcFileName", "~/tclsh.rc")]).
Proof. split; reflexivity. Qed.

Example main_hooked_build :
  main healthy_library hooked_build 3 ["tclsh"; "-x"; "f.tcl"] [] =
  mkRun [Ev_XtToolkitInitialize;
         Ev_MainHook "My_MainHook" 3 ["tclsh"; "-x"; "f.tcl"] 0;
         Ev_Main 2 ["-x"; "f.tcl"] "My_AppInit"]
        None.
Proof. reflexivity. Qed.

Example main_when_Tcl_Main_returns :
  main (sample_library nothing_fails true true) plain_build
    2 ["tclsh"; "f.tcl"] [] =
  mkRun [Ev_Main 2 ["tclsh"; "f.tcl"] "Tcl_AppInit"] (Some (0, [])).
Proof. reflexivity. Qed.

(** * Tcl_AppInit *)

Section AppInitTheorems.

Context {World Interp Argv : Type}.
Variable L : TclLibrary World Interp Argv.
Variable cfg : BuildConfig.
Variable interp : Interp.
Variable w : World.

(** [Tcl_AppInit] always comes back, with [TCL_ERROR] or with [TCL_OK]. *)
Lemma Tcl_AppInit_returns :
  exists status w',
    outcome (Tcl_AppInit L cfg interp w) = Some (status, w') /\
    (status = TCL_ERROR L \/ status = TCL_OK L).
Proof.
  run_AppInit cfg; subst; do 2 eexists; split; try reflexivity; auto.
Qed.

(** C1.  Whenever a call of an initialisation routine made by
    [Tcl_AppInit] returns [TCL_ERROR], that call is the last thing
    [Tcl_AppInit] does: no call follows it (no later initialisation
    routine, no second attempt, no registration, no [Tcl_SetVar]), the
    function returns [TCL_ERROR], the world is left exactly as the failing
    routine left it, no variable has been set, and the routine had not
    been called before. *)
Theorem Tcl_AppInit_error_stops
    (pre post : list (Event Interp Argv)) (p : PackageInitProc) (i : Interp) :
  trace (Tcl_AppInit L cfg interp w) =
    pre ++ Ev_Init p i (TCL_ERROR L) :: post ->
  post = [] /\
  (exists w0 w',
     lib_init L p i w0 = (TCL_ERROR L, w') /\
     outcome (Tcl_AppInit L cfg interp w) = Some (TCL_ERROR L, w')) /\
  vars_set (trace (Tcl_AppInit L cfg interp w)) = [] /\
  ~ In p (init_calls pre).
Proof.
  run_AppInit cfg; intros H; split_trace H; try congruence; cbn.
  all: repeat split; try (do 2 eexists; split; [eassumption|reflexivity]).
  all: intuition discriminate.
Qed.

(** C2.  Provided tcl.h gives [TCL_OK] and [TCL_ERROR] different values,
    [Tcl_AppInit] returns [TCL_ERROR] exactly when the library makes one
    of the initialisation routines of the build return [TCL_ERROR], run
    in order from the world and on the interpreter [Tcl_AppInit] was
    given; that is exactly when one of the initialisation calls it made
    returned [TCL_ERROR]; in particular it fails when [Tcl_Init] does; and
    otherwise it returns [TCL_OK]. *)
Theorem Tcl_AppInit_fails_iff :
  TCL_OK L <> TCL_ERROR L ->
  (returned (Tcl_AppInit L cfg interp w) = Some (TCL_ERROR L) <->
   forwarded_init_fails L interp (init_steps cfg) w = true) /\
  (forwarded_init_fails L interp (init_steps cfg) w = true <->
   init_failed (TCL_ERROR L) (trace (Tcl_AppInit L cfg interp w))) /\
  (fst (lib_init L Tcl_Init interp w) = TCL_ERROR L ->
   returned (Tcl_AppInit L cfg interp w) = Some (TCL_ERROR L)) /\
  (returned (Tcl_AppInit L cfg interp w) = Some (TCL_ERROR L) \/
   returned (Tcl_AppInit L cfg interp w) = Some (TCL_OK L)).
Proof.
  intros Hne. unfold returned, init_failed.
  run_AppInit_with_library cfg; subst;
    (split; [split | split; [split | split]]); auto; try intros H.
  all: try (do 2 eexists; cbn; eauto 10; fail).
  all: try congruence.
  all: destruct H as (p & i & H); cbn in H; intuition congruence.
Qed.

(** C3.  When no initialisation call made by [Tcl_AppInit] returns
    [TCL_ERROR], the function sets exactly one variable,
    [tcl_rcFileName], globally, to the name of the start-up file of the
    build; that call is its last, and it returns [TCL_OK]. *)
Theorem Tcl_AppInit_success :
  inits_succeeded (TCL_ERROR L) (trace (Tcl_AppInit L cfg interp w)) ->
  vars_set (trace (Tcl_AppInit L cfg interp w)) = ["tcl_rcFileName"] /\
  (exists pre res,
     trace (Tcl_AppInit L cfg interp w) =
     pre ++ [Ev_SetVar interp "tcl_rcFileName"
               (if DJGPP cfg then "~/tclsh.rc" else "~/.tclshrc")
               (TCL_GLOBAL_ONLY L) res] /\
     vars_set pre = []) /\
  returned (Tcl_AppInit L cfg interp w) = Some (TCL_OK L).
Proof.
  unfold returned, inits_succeeded.
  run_AppInit cfg; subst; intros H.
  all: try (exfalso; eapply H; [cbn; eauto 10 | reflexivity]; fail).
  all: split; [reflexivity | split; [ | reflexivity]].
  all: match goal with
       | |- exists pre res, ?t = _ /\ _ => all_but_last t
       end; eexists; split; reflexivity.
Qed.

(** C6.  The initialisation routines [Tcl_AppInit] calls are, in call
    order, an initial part of the fixed sequence of the build
    ([init_sequence]); [Tcl_Init] is always called and called first; when
    none fails the whole sequence is called; and a package is registered
    with [Tcl_StaticPackage] only after its initialisation routine has
    been called on the same interpreter and did not return [TCL_ERROR]. *)
Theorem Tcl_AppInit_init_order :
  (exists later,
     init_sequence cfg =
     init_calls (trace (Tcl_AppInit L cfg interp w)) ++ later) /\
  (exists later,
     init_calls (trace (Tcl_AppInit L cfg interp w)) = Tcl_Init :: later) /\
  (inits_succeeded (TCL_ERROR L) (trace (Tcl_AppInit L cfg interp w)) ->
   init_calls (trace (Tcl_AppInit L cfg interp w)) = init_sequence cfg) /\
  (forall pre post i pkgName p safe,
     trace (Tcl_AppInit L cfg interp w) =
     pre ++ Ev_StaticPackage i pkgName (Some p) safe :: post ->
     exists code, In (Ev_Init p i code) pre /\ code <> TCL_ERROR L).
Proof.
  unfold inits_succeeded, init_sequence.
  run_AppInit cfg; subst; repeat split.
  all: try (eexists; reflexivity).
  all: try (intros H; try reflexivity;
            exfalso; eapply H; [cbn; eauto 10 | reflexivity]; fail).
  all: intros pre post i pkgName p safe H; split_trace H.
  all: eexists; split; [cbn; eauto 10 | assumption].
Qed.

(** C10.  When no initialisation call returns [TCL_ERROR] and the
    [Tcl_SetVar] call fails (returns a null pointer), that call is still
    the last thing [Tcl_AppInit] does, and the function returns
    [TCL_OK]. *)
Theorem Tcl_AppInit_ignores_SetVar_failure
    (pre post : list (Event Interp Argv)) (i : Interp)
    (varName newValue : string) (flags : Z) :
  inits_succeeded (TCL_ERROR L) (trace (Tcl_AppInit L cfg interp w)) ->
  trace (Tcl_AppInit L cfg interp w) =
    pre ++ Ev_SetVar i varName newValue flags None :: post ->
  post = [] /\
  returned (Tcl_AppInit L cfg interp w) = Some (TCL_OK L).
Proof.
  unfold returned, inits_succeeded.
  run_AppInit cfg; subst; intros Hok H; split_trace H; auto.
Qed.

End AppInitTheorems.

(** * main *)

Section MainTheorems.

Context {World Interp Argv : Type}.
Variable L : TclLibrary World Interp Argv.
Variable cfg : BuildConfig.
Variable argc : Z.
Variable argv : Argv.
Variable w : World.

(** C4.  In a build without [TCL_LOCAL_MAIN_HOOK], the only library call
    [main] makes that receives [argc] or [argv] is the call of [Tcl_Main],
    which gets both as [main] got them, together with the function
    [TCL_LOCAL_APPINIT] names, [Tcl_AppInit] unless the build says
    otherwise.  (Before it, a build with [TCL_XT_TEST] calls
    [XtToolkitInitialize], without arguments.) *)
Theorem main_forwards_arguments :
  TCL_LOCAL_MAIN_HOOK cfg = None ->
  trace (main L cfg argc argv w) =
    (if TCL_XT_TEST cfg then [Ev_XtToolkitInitialize] else []) ++
    [Ev_Main argc argv
       (match TCL_LOCAL_APPINIT cfg with
        | Some f => f
        | None => "Tcl_AppInit"
        end)].
Proof.
  run_main cfg; intros H; try discriminate H.
  all: match goal with
       | |- context [lib_Main ?L ?a ?v ?f ?w] =>
           destruct (lib_Main L a v f w); reflexivity
       end.
Qed.

(** C5.  With a [Tcl_Main] that never returns, [main] never returns
    either: its run ends in the call of [Tcl_Main] and has no outcome. *)
Theorem main_never_returns :
  Tcl_Main_never_returns L ->
  outcome (main L cfg argc argv w) = None /\
  exists pre argc' argv',
    trace (main L cfg argc argv w) =
    pre ++ [Ev_Main argc' argv' (local_appinit cfg)].
Proof.
  intros H. run_main cfg; rewrite !H; cbn; split; try reflexivity.
  all: match goal with
       | |- exists pre a v, ?t = _ => all_but_last t
       end; do 2 eexists; reflexivity.
Qed.

(** C9.  Whatever [main] returns is 0, in every build and with every
    library (whatever the hook, [Tcl_Main] or the initialisation did); and
    with a [Tcl_Main] that returns, [main] does return 0. *)
Theorem main_exit_status :
  (forall status w',
     outcome (main L cfg argc argv w) = Some (status, w') -> status = 0) /\
  (Tcl_Main_always_returns L ->
   returned (main L cfg argc argv w) = Some 0).
Proof.
  unfold returned, Tcl_Main_always_returns.
  run_main cfg; split.
  all: match goal with
       | |- context [lib_Main ?L ?a ?v ?f ?w] =>
           let E := fresh in
           destruct (lib_Main L a v f w) eqn:E; cbn
       end.
  all: try (intros ? ? [= <- _]; reflexivity).
  all: try discriminate.
  all: try reflexivity.
  all: let Hr := fresh "Hr" in intros Hr; exfalso; eapply Hr; eassumption.
Qed.

End MainTheorems.

(** * The stub table *)

Section StubTheorems.

Import PlatDecls.

Context {CharPtr TCharPtr DStringPtr InterpPtr HooksPtr Mem : Type}.

(** X14.  In a build for one platform, the member the macro of a declared
    function names sits at that function's number among the
    function-pointer members of the table. *)
Lemma member_at_ordinal (d : Defines) (f : PlatFn) :
  WIN d = negb (MAC_OSX_TCL d) ->
  declared d f = true ->
  nth_error (members d) (ordinal f) = Some f.
Proof.
  destruct d as [win mac stubs procs]; unfold members; cbn.
  intros ->; destruct mac, f; cbn; intros H; try discriminate; reflexivity.
Qed.


End StubTheorems.

(** * The theorems at concrete inputs *)

(** A test build in which [TclObjTest_Init] reports an error. *)
Lemma Tcl_AppInit_error_stops_witness :
  trace (Tcl_AppInit
           (sample_library (PackageInitProc_eqb TclObjTest_Init) true false)
           test_build tt []) =
    [Ev_Init Tcl_Init tt 0; Ev_Init Tclxttest_Init tt 0;
     Ev_Init Tcltest_Init tt 0;
     Ev_StaticPackage tt "Tcltest" (Some Tcltest_Init) None] ++
    Ev_Init TclObjTest_Init tt 1 :: [] /\
  vars_set
    (trace (Tcl_AppInit
              (sample_library (PackageInitProc_eqb TclObjTest_Init) true false)
              test_build tt [])) = [].
Proof.
  split; [reflexivity|].
  apply (Tcl_AppInit_error_stops
           (sample_library (PackageInitProc_eqb TclObjTest_Init) true false)
           test_build tt []
           [Ev_Init Tcl_Init tt 0; Ev_Init Tclxttest_Init tt 0;
            Ev_Init Tcltest_Init tt 0;
            Ev_StaticPackage tt "Tcltest" (Some Tcltest_Init) None]
           [] TclObjTest_Init tt).
  reflexivity.
Defined.

(** A test build in which the library makes [Tcltest_Init] fail. *)
Lemma Tcl_AppInit_fails_iff_witness :
  TCL_OK (sample_library (PackageInitProc_eqb Tcltest_Init) true false) <>
  TCL_ERROR (sample_library (PackageInitProc_eqb Tcltest_Init) true false) /\
  forwarded_init_fails
    (sample_library (PackageInitProc_eqb Tcltest_Init) true false) tt
    (init_steps test_build) [] = true /\
  returned
    (Tcl_AppInit (sample_library (PackageInitProc_eqb Tcltest_Init) true false)
       test_build tt []) = Some 1.
Proof.
  split; [discriminate|]. split; [reflexivity|].
  apply (proj2
           (proj1
              (Tcl_AppInit_fails_iff
                 (sample_library (PackageInitProc_eqb Tcltest_Init) true false)
                 test_build tt []
                 ltac:(discriminate)))).
  reflexivity.
Defined.

Lemma Tcl_AppInit_success_witness :
  inits_succeededb 1
    (trace (Tcl_AppInit healthy_library test_build tt [])) = true /\
  returned (Tcl_AppInit healthy_library test_build tt []) = Some 0.
Proof.
  split; [reflexivity|].
  apply (Tcl_AppInit_success healthy_library test_build tt []).
  apply inits_succeededb_sound. reflexivity.
Defined.

Lemma Tcl_AppInit_init_order_witness :
  init_calls (trace (Tcl_AppInit healthy_library test_build tt [])) =
  [Tcl_Init; Tclxttest_Init; Tcltest_Init; TclObjTest_Init;
   Procbodytest_Init].
Proof.
  apply (Tcl_AppInit_init_order healthy_library test_build tt []).
  apply inits_succeededb_sound. reflexivity.
Defined.

(** A library in which [Tcl_SetVar] fails. *)
Lemma Tcl_AppInit_ignores_SetVar_failure_witness :
  trace (Tcl_AppInit (sample_library nothing_fails false false)
           plain_build tt []) =
    [Ev_Init Tcl_Init tt 0] ++
    Ev_SetVar tt "tcl_rcFileName" "~/.tclshrc" 1 None :: [] /\
  returned (Tcl_AppInit (sample_library nothing_fails false false)
              plain_build tt []) = Some 0.
Proof.
  split; [reflexivity|].
  apply (Tcl_AppInit_ignores_SetVar_failure
           (sample_library nothing_fails false false) plain_build tt []
           [Ev_Init Tcl_Init tt 0] [] tt "tcl_rcFileName" "~/.tclshrc" 1).
  - apply inits_succeededb_sound. reflexivity.
  - reflexivity.
Defined.

Lemma main_forwards_arguments_witness :
  TCL_LOCAL_MAIN_HOOK test_build = None /\
  trace (main healthy_library test_build 2 ["tclsh"; "f.tcl"] []) =
    [Ev_XtToolkitInitialize; Ev_Main 2 ["tclsh"; "f.tcl"] "Tcl_AppInit"].
Proof.
  split; [reflexivity|].
  apply (main_forwards_arguments healthy_library test_build
           2 ["tclsh"; "f.tcl"] []).
  reflexivity.
Defined.

Lemma main_never_returns_witness :
  Tcl_Main_never_returns healthy_library /\
  outcome (main healthy_library hooked_build 3 ["tclsh"; "-x"; "f.tcl"] []) =
    None.
Proof.
  split; [intros argc argv appInitProc w; reflexivity|].
  apply (main_never_returns healthy_library hooked_build
           3 ["tclsh"; "-x"; "f.tcl"] []).
  intros argc argv appInitProc w; reflexivity.
Defined.

Lemma main_exit_status_witness :
  Tcl_Main_always_returns (sample_library nothing_fails true true) /\
  returned (main (sample_library nothing_fails true true) hooked_build
              3 ["tclsh"; "-x"; "f.tcl"] []) = Some 0.
Proof.
  split; [intros argc argv appInitProc w; discriminate|].
  apply (main_exit_status (sample_library nothing_fails true true)
           hooked_build 3 ["tclsh"; "-x"; "f.tcl"] []).
  intros argc argv appInitProc w; discriminate.
Defined.




(** * More on Tcl_AppInit and main *)

Section MoreAppInitTheorems.

Context {World Interp Argv : Type}.
Variable L : TclLibrary World Interp Argv.
Variable cfg : BuildConfig.
Variable interp : Interp.
Variable w : World.

(** X1.  Every library call [Tcl_AppInit] makes is an initialisation, a
    registration or a [Tcl_SetVar] on the interpreter it was given: it
    touches no other interpreter and calls nothing else. *)
Theorem Tcl_AppInit_same_interp :
  Forall (on_interp interp) (trace (Tcl_AppInit L cfg interp w)).
Proof.
  run_AppInit cfg; repeat constructor.
Qed.

(** X2.  No initialisation routine is called twice in one run of
    [Tcl_AppInit], and [Procbodytest_SafeInit] is never called: it is only
    handed to [Tcl_StaticPackage]. *)
Theorem Tcl_AppInit_calls_once :
  NoDup (init_calls (trace (Tcl_AppInit L cfg interp w))) /\
  ~ In Procbodytest_SafeInit
      (init_calls (trace (Tcl_AppInit L cfg interp w))).
Proof.
  run_AppInit cfg; split;
    try (repeat constructor; cbn; intuition discriminate);
    cbn; intuition discriminate.
Qed.

(** X3.  The packages [Tcl_AppInit] registers are, in order, an initial
    part of: Tcltest (without safe initialisation), procbodytest (with
    [Procbodytest_SafeInit]).  A build without [TCL_TEST] registers none;
    a test build in which no initialisation fails registers both. *)
Theorem Tcl_AppInit_registrations :
  (exists later,
     [Tcltest_registration; procbodytest_registration] =
     registrations (trace (Tcl_AppInit L cfg interp w)) ++ later) /\
  (TCL_TEST cfg = false ->
   registrations (trace (Tcl_AppInit L cfg interp w)) = []) /\
  (TCL_TEST cfg = true ->
   inits_succeeded (TCL_ERROR L) (trace (Tcl_AppInit L cfg interp w)) ->
   registrations (trace (Tcl_AppInit L cfg interp w)) =
   [Tcltest_registration; procbodytest_registration]).
Proof.
  unfold inits_succeeded.
  run_AppInit cfg; subst; repeat split.
  all: try (eexists; reflexivity).
  all: try discriminate.
  all: try (intros _ H; try reflexivity;
            exfalso; eapply H; [cbn; eauto 10 | reflexivity]; fail).
Qed.

(** X4.  Nothing is undone when a later initialisation fails: if the
    routine that returns [TCL_ERROR] is [TclObjTest_Init] or
    [Procbodytest_Init], Tcltest has been registered and stays so, while
    [Tcl_AppInit] returns [TCL_ERROR]; if it is an earlier routine, nothing
    has been registered. *)
Theorem Tcl_AppInit_no_rollback
    (pre post : list (Event Interp Argv)) (p : PackageInitProc) (i : Interp) :
  trace (Tcl_AppInit L cfg interp w) =
    pre ++ Ev_Init p i (TCL_ERROR L) :: post ->
  registrations (trace (Tcl_AppInit L cfg interp w)) =
    match p with
    | TclObjTest_Init | Procbodytest_Init => [Tcltest_registration]
    | _ => []
    end /\
  registrations pre = registrations (trace (Tcl_AppInit L cfg interp w)) /\
  returned (Tcl_AppInit L cfg interp w) = Some (TCL_ERROR L).
Proof.
  unfold returned.
  run_AppInit cfg; intros H; split_trace H; try congruence; cbn;
    repeat split.
Qed.

End MoreAppInitTheorems.

Section MoreMainTheorems.

Context {World Interp Argv : Type}.
Variable L : TclLibrary World Interp Argv.
Variable cfg : BuildConfig.
Variable argc : Z.
Variable argv : Argv.
Variable w : World.

(** X5.  In a build with [TCL_LOCAL_MAIN_HOOK], the hook is called with
    [argc] and [argv] as [main] got them, after [XtToolkitInitialize] if
    that is called at all; [Tcl_Main] then gets the values the hook left
    in them.  The value the hook returns has no effect: whatever it is,
    [Tcl_Main] is called, and [main] returns 0 if [Tcl_Main] returns. *)
Theorem main_with_hook
    (hook : string) (code argc' : Z) (argv' : Argv) (w' : World) :
  TCL_LOCAL_MAIN_HOOK cfg = Some hook ->
  lib_main_hook L hook argc argv
    (if TCL_XT_TEST cfg then lib_XtToolkitInitialize L w else w) =
    (code, (argc', argv'), w') ->
  trace (main L cfg argc argv w) =
    (if TCL_XT_TEST cfg then [Ev_XtToolkitInitialize] else []) ++
    [Ev_MainHook hook argc argv code;
     Ev_Main argc' argv' (local_appinit cfg)] /\
  outcome (main L cfg argc argv w) =
    match lib_Main L argc' argv' (local_appinit cfg) w' with
    | Some w'' => Some (0, w'')
    | None => None
    end.
Proof.
  unfold main, bind, XtToolkitInitialize, call_main_hook, Tcl_Main, ret.
  destruct cfg as [test xt djgpp appinit hk]; cbn.
  intros -> Hhook; destruct xt; cbn; rewrite Hhook; cbn;
    destruct (lib_Main L argc' argv' (local_appinit _) w');
    split; reflexivity.
Qed.

(** X6.  A build with [TCL_XT_TEST] but without [TCL_TEST] initialises the
    Xt toolkit first thing in [main], yet its [Tcl_AppInit] calls
    [Tcl_Init] and no other initialisation routine: [Tclxttest_Init] needs
    both macros. *)
Theorem xt_test_without_tcl_test (interp : Interp) (w0 : World) :
  TCL_TEST cfg = false ->
  TCL_XT_TEST cfg = true ->
  (exists rest,
     trace (main L cfg argc argv w) = Ev_XtToolkitInitialize :: rest) /\
  init_calls (trace (Tcl_AppInit L cfg interp w0)) = [Tcl_Init].
Proof.
  intros Ht Hx; split.
  - revert Ht Hx. run_main cfg; intros _ Hx; try discriminate Hx;
      eexists; reflexivity.
  - revert Ht Hx.
    unfold Tcl_AppInit.
    destruct cfg as [test xt djgpp appinit hook]; cbn [TCL_TEST TCL_XT_TEST].
    intros -> _.
    cbv beta iota delta [ifdef TCL_TEST TCL_XT_TEST DJGPP].
    repeat first [step_init | step_register | step_setvar]; reflexivity.
Qed.

End MoreMainTheorems.


(** * The header, section by section *)

(** Side conditions on macro names. *)
Ltac names :=
  lazymatch goal with
  | |- forall f : PlatDecls.PlatFn, _ => intros []
  | _ => idtac
  end; cbv; discriminate.

Section HeaderLemmas.

Import PlatDecls PlatDeclsHeader.

Lemma lookup_define_same (n body : string) (e : Macros) :
  lookup n (define n body e) = Some body.
Proof. unfold define; simpl. rewrite String.eqb_refl. reflexivity. Qed.

Lemma lookup_define_other (k n body : string) (e : Macros) :
  n <> k -> lookup n (define k body e) = lookup n e.
Proof.
  intros H; unfold define; simpl.
  destruct (String.eqb_spec k n); [subst; contradiction | reflexivity].
Qed.

Lemma lookup_undef_same (n : string) (e : Macros) :
  lookup n (undef n e) = None.
Proof.
  induction e as [|[k body] e IH]; simpl; [reflexivity|].
  destruct (String.eqb_spec k n) as [->|Hk]; [exact IH|].
  simpl. destruct (String.eqb_spec k n); [contradiction | exact IH].
Qed.

Lemma lookup_undef_other (k n : string) (e : Macros) :
  n <> k -> lookup n (undef k e) = lookup n e.
Proof.
  intros H; induction e as [|[k' body] e IH]; simpl; [reflexivity|].
  destruct (String.eqb_spec k' k) as [->|Hk].
  - destruct (String.eqb_spec k n); [subst; contradiction | exact IH].
  - simpl. destruct (String.eqb_spec k' n); [reflexivity | exact IH].
Qed.

Lemma lookup_def_other (k v n : string) (s : TransUnit) :
  n <> k -> lookup n (macros (def k v s)) = lookup n (macros s).
Proof. intros H; apply lookup_define_other; exact H. Qed.

Lemma lookup_def_same (n v : string) (s : TransUnit) :
  lookup n (macros (def n v s)) = Some v.
Proof. apply lookup_define_same. Qed.

Lemma lookup_undefine_other (k n : string) (s : TransUnit) :
  n <> k -> lookup n (macros (undefine k s)) = lookup n (macros s).
Proof. intros H; apply lookup_undef_other; exact H. Qed.

Lemma lookup_emit (d : Decl) (n : string) (s : TransUnit) :
  lookup n (macros (emit d s)) = lookup n (macros s).
Proof. reflexivity. Qed.

(** A macro defined under [#ifndef] of its own name hides no earlier
    definition. *)
Lemma lookup_def_guarded (k v n b : string) (s : TransUnit) :
  is_def k s = false ->
  lookup n (macros s) = Some b ->
  lookup n (macros (def k v s)) = Some b.
Proof.
  unfold is_def, defined; intros Hk Hn.
  destruct (String.eqb_spec n k) as [->|Hne].
  - rewrite Hn in Hk; discriminate.
  - rewrite lookup_def_other by exact Hne. exact Hn.
Qed.

(** *** What each section leaves alone *)

Lemma lookup_storage_class_section (n : string) (s : TransUnit) :
  n <> "TCL_STORAGE_CLASS" ->
  lookup n (macros (storage_class_section s)) = lookup n (macros s).
Proof.
  intros H; unfold storage_class_section.
  destruct (is_def "BUILD_tcl" _); [|destruct (is_def "USE_TCL_STUBS" _)];
    rewrite lookup_def_other, lookup_undefine_other by exact H;
    reflexivity.
Qed.

Lemma lookup_tchar_section (n : string) (s : TransUnit) :
  n <> "_TCHAR_DEFINED" ->
  lookup n (macros (tchar_section s)) = lookup n (macros s).
Proof.
  intros H; unfold tchar_section.
  destruct (_ && _); [|reflexivity].
  destruct (is_def "_UNICODE" s);
    rewrite lookup_def_other, lookup_emit by exact H; reflexivity.
Qed.

Lemma lookup_declare (n : string) (f : PlatFn) (s : TransUnit) :
  n <> declared_flag f ->
  lookup n (macros (declare f s)) = lookup n (macros s).
Proof.
  intros H; unfold declare.
  destruct (is_def (declared_flag f) s); [reflexivity|].
  rewrite lookup_emit, lookup_def_other by exact H; reflexivity.
Qed.

Lemma lookup_prototypes_section (n : string) (s : TransUnit) :
  (forall f, n <> declared_flag f) ->
  lookup n (macros (prototypes_section s)) = lookup n (macros s).
Proof.
  intros H; unfold prototypes_section.
  destruct (is_def "MAC_OSX_TCL" _); destruct (win s);
    rewrite ?lookup_declare by apply H; reflexivity.
Qed.

Lemma macros_struct_section (s : TransUnit) :
  macros (struct_section s) = macros s.
Proof. reflexivity. Qed.

Lemma lookup_stub_macro (n : string) (f : PlatFn) (s : TransUnit) :
  n <> fn_name f ->
  lookup n (macros (stub_macro f s)) = lookup n (macros s).
Proof.
  intros H; unfold stub_macro.
  destruct (is_def (fn_name f) s); [reflexivity|].
  apply lookup_def_other; exact H.
Qed.

Lemma lookup_macros_section (n : string) (s : TransUnit) :
  (forall f, n <> fn_name f) ->
  lookup n (macros (macros_section s)) = lookup n (macros s).
Proof.
  intros H; unfold macros_section.
  destruct (_ && _); [|reflexivity].
  destruct (is_def "MAC_OSX_TCL" _); destruct (win s);
    rewrite ?lookup_stub_macro by apply H; reflexivity.
Qed.

Lemma macros_extern_C_open (s : TransUnit) :
  macros (extern_C_open s) = macros s.
Proof. unfold extern_C_open; destruct (is_def _ s); reflexivity. Qed.

Lemma macros_extern_C_close (s : TransUnit) :
  macros (extern_C_close s) = macros s.
Proof. unfold extern_C_close; destruct (is_def _ s); reflexivity. Qed.

Lemma lookup_restore_storage_class (n : string) (s : TransUnit) :
  n <> "TCL_STORAGE_CLASS" ->
  lookup n (macros (restore_storage_class s)) = lookup n (macros s).
Proof.
  intros H; unfold restore_storage_class.
  rewrite lookup_def_other, lookup_undefine_other by exact H; reflexivity.
Qed.

End HeaderLemmas.

Section HeaderSections.

Import PlatDecls PlatDeclsHeader.

Lemma is_def_storage_class_section (n : string) (s : TransUnit) :
  n <> "TCL_STORAGE_CLASS" ->
  is_def n (storage_class_section s) = is_def n s.
Proof.
  intros H; unfold is_def, defined.
  rewrite lookup_storage_class_section by exact H; reflexivity.
Qed.

Lemma is_def_tchar_section (n : string) (s : TransUnit) :
  n <> "_TCHAR_DEFINED" -> is_def n (tchar_section s) = is_def n s.
Proof.
  intros H; unfold is_def, defined.
  rewrite lookup_tchar_section by exact H; reflexivity.
Qed.

Lemma is_def_declare (n : string) (f : PlatFn) (s : TransUnit) :
  n <> declared_flag f -> is_def n (declare f s) = is_def n s.
Proof.
  intros H; unfold is_def, defined.
  rewrite lookup_declare by exact H; reflexivity.
Qed.

Lemma is_def_prototypes_section (n : string) (s : TransUnit) :
  (forall f, n <> declared_flag f) ->
  is_def n (prototypes_section s) = is_def n s.
Proof.
  intros H; unfold is_def, defined.
  rewrite lookup_prototypes_section by exact H; reflexivity.
Qed.

Lemma is_def_extern_C_open (n : string) (s : TransUnit) :
  is_def n (extern_C_open s) = is_def n s.
Proof. unfold is_def; rewrite macros_extern_C_open; reflexivity. Qed.

Lemma is_def_struct_section (n : string) (s : TransUnit) :
  is_def n (struct_section s) = is_def n s.
Proof. reflexivity. Qed.

Lemma is_def_def_other (n k v : string) (s : TransUnit) :
  n <> k -> is_def n (def k v s) = is_def n s.
Proof.
  intros H; unfold is_def, defined.
  rewrite lookup_def_other by exact H; reflexivity.
Qed.

(** *** What each section declares *)

Lemma decls_storage_class_section (s : TransUnit) :
  decls (storage_class_section s) = decls s.
Proof.
  unfold storage_class_section.
  destruct (is_def "BUILD_tcl" _); [|destruct (is_def "USE_TCL_STUBS" _)];
    reflexivity.
Qed.

Lemma decls_tchar_section (s : TransUnit) :
  decls (tchar_section s) = decls s ++ tchar_decls (macros s).
Proof.
  unfold tchar_section, tchar_decls, is_def.
  destruct (_ && _); [|symmetry; apply app_nil_r].
  destruct (defined "_UNICODE" _); reflexivity.
Qed.

Lemma decls_declare (f : PlatFn) (s : TransUnit) :
  decls (declare f s) =
  decls s ++
  (if is_def (declared_flag f) s then []
   else [Prototype f (lookup "TCL_STORAGE_CLASS" (macros s))]).
Proof.
  unfold declare.
  destruct (is_def (declared_flag f) s); [symmetry; apply app_nil_r|].
  unfold emit; cbn [decls macros def].
  rewrite lookup_define_other by (destruct f; names). reflexivity.
Qed.

Lemma decls_prototypes_section (s : TransUnit) :
  decls (prototypes_section s) =
  decls s ++
  flat_map
    (fun f => if is_def (declared_flag f) s then []
              else [Prototype f (lookup "TCL_STORAGE_CLASS" (macros s))])
    (members (defines_of (macros s))).
Proof.
  unfold prototypes_section, members, defines_of; cbn [WIN MAC_OSX_TCL].
  change (defined "__WIN32__" (macros s) || defined "__CYGWIN__" (macros s))
    with (win s).
  change (defined "MAC_OSX_TCL" (macros s)) with (is_def "MAC_OSX_TCL" s).
  destruct (win s).
  - rewrite !is_def_declare by names.
    destruct (is_def "MAC_OSX_TCL" s); cbn [app flat_map];
      rewrite !decls_declare, !is_def_declare by names;
      rewrite !lookup_declare by names;
      rewrite <- !app_assoc, ?app_nil_r; reflexivity.
  - destruct (is_def "MAC_OSX_TCL" s); cbn [app flat_map];
      [|symmetry; apply app_nil_r].
    rewrite !decls_declare, !is_def_declare by names;
      rewrite !lookup_declare by names;
      rewrite <- !app_assoc, ?app_nil_r; reflexivity.
Qed.

Lemma decls_struct_section (s : TransUnit) :
  decls (struct_section s) =
  decls s ++
  [Struct_TclPlatStubs (members (defines_of (macros s)));
   Extern_tclPlatStubsPtr].
Proof.
  unfold struct_section, emit; cbn [decls macros].
  rewrite <- app_assoc. reflexivity.
Qed.

Lemma decls_macros_section (s : TransUnit) :
  decls (macros_section s) = decls s.
Proof.
  unfold macros_section, stub_macro.
  destruct (_ && _); [|reflexivity].
  destruct (win s);
    repeat match goal with
      | |- context [is_def ?n ?t] => destruct (is_def n t)
      end; reflexivity.
Qed.

Lemma decls_extern_C_open (s : TransUnit) :
  decls (extern_C_open s) =
  decls s ++ (if is_def "__cplusplus" s then [ExternC_open] else []).
Proof.
  unfold extern_C_open; destruct (is_def _ s);
    [reflexivity | symmetry; apply app_nil_r].
Qed.

Lemma decls_extern_C_close (s : TransUnit) :
  decls (extern_C_close s) =
  decls s ++ (if is_def "__cplusplus" s then [ExternC_close] else []).
Proof.
  unfold extern_C_close; destruct (is_def _ s);
    [reflexivity | symmetry; apply app_nil_r].
Qed.

End HeaderSections.


Section HeaderWhole.

Import PlatDecls PlatDeclsHeader.

Lemma lookup_TSC_storage_class_section (s : TransUnit) :
  lookup "TCL_STORAGE_CLASS" (macros (storage_class_section s)) =
  Some (storage_class_inside (macros s)).
Proof.
  unfold storage_class_section, storage_class_inside, is_def, defined.
  rewrite !lookup_undefine_other by names.
  destruct (lookup "BUILD_tcl" (macros s));
    [|destruct (lookup "USE_TCL_STUBS" (macros s))];
    apply lookup_def_same.
Qed.

(** The state in which the prototypes are read: after the include guard,
    the storage class, [TCHAR] and the opening of the linkage block. *)
Lemma lookup_before_prototypes (n : string) (s : TransUnit) :
  n <> "_TCLPLATDECLS" -> n <> "TCL_STORAGE_CLASS" ->
  n <> "_TCHAR_DEFINED" ->
  lookup n
    (macros (extern_C_open (tchar_section (storage_class_section
       (def "_TCLPLATDECLS" "" s))))) =
  lookup n (macros s).
Proof.
  intros H1 H2 H3.
  rewrite macros_extern_C_open, lookup_tchar_section,
    lookup_storage_class_section, lookup_def_other by assumption.
  reflexivity.
Qed.

Lemma lookup_TSC_before_prototypes (s : TransUnit) :
  lookup "TCL_STORAGE_CLASS"
    (macros (extern_C_open (tchar_section (storage_class_section
       (def "_TCLPLATDECLS" "" s))))) =
  Some (storage_class_inside (macros s)).
Proof.
  rewrite macros_extern_C_open, lookup_tchar_section by names.
  rewrite lookup_TSC_storage_class_section.
  unfold storage_class_inside, defined.
  rewrite !lookup_def_other by names. reflexivity.
Qed.

Lemma defines_of_before_prototypes (s : TransUnit) :
  defines_of
    (macros (extern_C_open (tchar_section (storage_class_section
       (def "_TCLPLATDECLS" "" s))))) =
  defines_of (macros s).
Proof.
  unfold defines_of, defined.
  rewrite !lookup_before_prototypes by names. reflexivity.
Qed.

Lemma tchar_decls_after_storage_class (s : TransUnit) :
  tchar_decls (macros (storage_class_section (def "_TCLPLATDECLS" "" s))) =
  tchar_decls (macros s).
Proof.
  unfold tchar_decls, defined.
  rewrite !lookup_storage_class_section by names.
  rewrite !lookup_def_other by names. reflexivity.
Qed.

(** The declarations of the header, from the macros defined where it is
    included. *)
Lemma decls_include_first (e : Macros) :
  defined "_TCLPLATDECLS" e = false ->
  decls (include_first e) = header_decls e.
Proof.
  intros Hg. unfold include_first, tclPlatDecls_h, is_def.
  cbn [macros]. rewrite Hg. cbv zeta.
  set (s0 := {| macros := e; decls := [] |}).
  unfold restore_storage_class, def at 1, undefine; cbn [decls].
  rewrite decls_macros_section, decls_extern_C_close, decls_struct_section,
    decls_prototypes_section, decls_extern_C_open, decls_tchar_section,
    decls_storage_class_section.
  cbn [decls def s0 app].
  rewrite tchar_decls_after_storage_class.
  unfold header_decls. cbn [macros s0].
  rewrite <- !app_assoc. f_equal.
  f_equal.
  - unfold is_def, defined.
    rewrite lookup_tchar_section, lookup_storage_class_section,
      lookup_def_other by names. reflexivity.
  - rewrite lookup_TSC_before_prototypes, defines_of_before_prototypes.
    cbn [macros s0]. f_equal.
    + apply flat_map_ext. intros f. unfold proto_decl, is_def, defined.
      rewrite lookup_before_prototypes by (destruct f; names).
      reflexivity.
    + rewrite is_def_struct_section.
      unfold defines_of, is_def, defined.
      rewrite !lookup_prototypes_section by names.
      rewrite !lookup_before_prototypes by names.
      subst s0; reflexivity.
Qed.

End HeaderWhole.


(** * What the header guarantees *)

Section HeaderTheorems.

Import PlatDecls PlatDeclsHeader.

Lemma guard_defined_after (s : TransUnit) :
  is_def "_TCLPLATDECLS" (tclPlatDecls_h s) = true.
Proof.
  unfold tclPlatDecls_h.
  destruct (is_def "_TCLPLATDECLS" s) eqn:E; [exact E|]. cbv zeta.
  unfold is_def, defined.
  rewrite lookup_restore_storage_class, lookup_macros_section by names.
  rewrite macros_extern_C_close, macros_struct_section.
  rewrite lookup_prototypes_section by names.
  rewrite macros_extern_C_open.
  rewrite lookup_tchar_section, lookup_storage_class_section by names.
  rewrite lookup_def_same. reflexivity.
Qed.

(** X7.  The include guard works: once the header has been read,
    [_TCLPLATDECLS] is defined, and reading the header again changes
    neither the macros nor the declarations. *)
Theorem include_guard (s : TransUnit) :
  is_def "_TCLPLATDECLS" (tclPlatDecls_h s) = true /\
  tclPlatDecls_h (tclPlatDecls_h s) = tclPlatDecls_h s.
Proof.
  split; [apply guard_defined_after|].
  unfold tclPlatDecls_h at 1. rewrite guard_defined_after. reflexivity.
Qed.

(** X8.  Every prototype of the header stands where [TCL_STORAGE_CLASS]
    is [DLLEXPORT] if [BUILD_tcl] is defined, else empty if
    [USE_TCL_STUBS] is defined, else [DLLIMPORT], whatever it was before
    the header; and behind the header it is [DLLIMPORT] in every case. *)
Theorem storage_class_of_header (e : Macros) :
  defined "_TCLPLATDECLS" e = false ->
  (forall f storage,
     In (Prototype f storage) (decls (include_first e)) ->
     storage = Some (storage_class_inside e)) /\
  lookup "TCL_STORAGE_CLASS" (macros (include_first e)) = Some "DLLIMPORT".
Proof.
  intros Hg; split.
  - intros f storage. rewrite decls_include_first by exact Hg.
    unfold header_decls, tchar_decls. rewrite !in_app_iff, in_flat_map.
    intros [H | [H | [(f' & _ & H) | [H | H]]]].
    + destruct (_ && _); [destruct H as [H|[]]; discriminate H | destruct H].
    + destruct (defined "__cplusplus" e);
        [destruct H as [H|[]]; discriminate H | destruct H].
    + unfold proto_decl in H. destruct (defined (declared_flag f') e);
        [destruct H|]. destruct H as [H|[]]. congruence.
    + destruct H as [H|[H|[]]]; discriminate H.
    + destruct (defined "__cplusplus" e);
        [destruct H as [H|[]]; discriminate H | destruct H].
  - unfold include_first, tclPlatDecls_h, is_def. cbn [macros].
    rewrite Hg. cbv zeta. unfold restore_storage_class.
    apply lookup_def_same.
Qed.

End HeaderTheorems.


Section HeaderTCHAR.

Import PlatDecls PlatDeclsHeader.

(** The declarations of the header with the tests on the macros taken
    out, for reasoning by cases. *)
Lemma header_decls_cases (e : Macros) :
  header_decls e =
  (if (defined "_WIN32" e || defined "__CYGWIN__" e)
      && negb (defined "_TCHAR_DEFINED" e)
   then [Typedef_TCHAR (if defined "_UNICODE" e then "wchar_t" else "char")]
   else []) ++
  (if defined "__cplusplus" e then [ExternC_open] else []) ++
  ((if defined "__WIN32__" e || defined "__CYGWIN__" e
    then proto_decl e Tcl_WinUtfToTChar ++ proto_decl e Tcl_WinTCharToUtf
    else []) ++
   (if defined "MAC_OSX_TCL" e
    then proto_decl e Tcl_MacOSXOpenBundleResources ++
         proto_decl e Tcl_MacOSXOpenVersionedBundleResources
    else [])) ++
  [Struct_TclPlatStubs
     ((if defined "__WIN32__" e || defined "__CYGWIN__" e
       then [Tcl_WinUtfToTChar; Tcl_WinTCharToUtf] else []) ++
      (if defined "MAC_OSX_TCL" e
       then [Tcl_MacOSXOpenBundleResources;
             Tcl_MacOSXOpenVersionedBundleResources]
       else []));
   Extern_tclPlatStubsPtr] ++
  (if defined "__cplusplus" e then [ExternC_close] else []).
Proof.
  unfold header_decls, tchar_decls, members, defines_of;
    cbn [WIN MAC_OSX_TCL].
  destruct (defined "__WIN32__" e || defined "__CYGWIN__" e);
    destruct (defined "MAC_OSX_TCL" e); cbn [flat_map app];
    rewrite ?app_nil_r, <- ?app_assoc; reflexivity.
Qed.

(** X9.  Where [__WIN32__] is only defined along with [_WIN32], the
    header never names [TCHAR] before the type is known: each prototype
    and struct member that uses it comes after the header's own typedef,
    unless [_TCHAR_DEFINED] says the type was there already. *)
Theorem TCHAR_declared_before_use (e : Macros) :
  defined "_TCLPLATDECLS" e = false ->
  (defined "__WIN32__" e = true -> defined "_WIN32" e = true) ->
  TCHAR_known_at_uses (defined "_TCHAR_DEFINED" e)
    (decls (include_first e)) = true.
Proof.
  intros Hg. rewrite decls_include_first by exact Hg.
  rewrite header_decls_cases. unfold proto_decl.
  generalize (defined (declared_flag Tcl_WinUtfToTChar) e)
    (defined (declared_flag Tcl_WinTCharToUtf) e)
    (defined (declared_flag Tcl_MacOSXOpenBundleResources) e)
    (defined (declared_flag Tcl_MacOSXOpenVersionedBundleResources) e)
    (storage_class_inside e).
  intros d1 d2 d3 d4 sc.
  destruct (defined "__WIN32__" e), (defined "_WIN32" e);
    intros H; try (specialize (H eq_refl); discriminate H); clear H.
  all: destruct (defined "__CYGWIN__" e), (defined "_TCHAR_DEFINED" e),
       (defined "_UNICODE" e), (defined "__cplusplus" e),
       (defined "MAC_OSX_TCL" e), d1, d2, d3, d4; reflexivity.
Qed.

(** X10.  The typedef of [TCHAR] is tested on [_WIN32], its uses on
    [__WIN32__]: where [__WIN32__] is defined but none of [_WIN32],
    [__CYGWIN__] and [_TCHAR_DEFINED], the header declares no [TCHAR] and
    still uses the type in [struct TclPlatStubs]. *)
Theorem TCHAR_used_undeclared (e : Macros) :
  defined "_TCLPLATDECLS" e = false ->
  defined "__WIN32__" e = true ->
  defined "_WIN32" e = false ->
  defined "__CYGWIN__" e = false ->
  defined "_TCHAR_DEFINED" e = false ->
  existsb is_Typedef_TCHAR (decls (include_first e)) = false /\
  existsb uses_TCHAR (decls (include_first e)) = true /\
  TCHAR_known_at_uses false (decls (include_first e)) = false.
Proof.
  intros Hg H1 H2 H3 H4. rewrite decls_include_first by exact Hg.
  rewrite header_decls_cases. unfold proto_decl.
  rewrite H1, H2, H3, H4.
  generalize (defined (declared_flag Tcl_WinUtfToTChar) e)
    (defined (declared_flag Tcl_WinTCharToUtf) e)
    (defined (declared_flag Tcl_MacOSXOpenBundleResources) e)
    (defined (declared_flag Tcl_MacOSXOpenVersionedBundleResources) e)
    (storage_class_inside e).
  intros d1 d2 d3 d4 sc.
  destruct (defined "__cplusplus" e), (defined "MAC_OSX_TCL" e),
    d1, d2, d3, d4; repeat split; reflexivity.
Qed.

End HeaderTCHAR.


Section HeaderMacros.

Import PlatDecls PlatDeclsHeader.

Lemma is_def_stub_macro (n : string) (f : PlatFn) (s : TransUnit) :
  n <> fn_name f -> is_def n (stub_macro f s) = is_def n s.
Proof.
  intros H; unfold is_def, defined.
  rewrite lookup_stub_macro by exact H; reflexivity.
Qed.

Lemma lookup_own_stub_macro (f : PlatFn) (s : TransUnit) :
  is_def (fn_name f) s = false ->
  lookup (fn_name f) (macros (stub_macro f s)) = Some (stub_expr f).
Proof.
  intros H; unfold stub_macro. rewrite H. apply lookup_def_same.
Qed.

Lemma lookup_undefined (n : string) (s : TransUnit) :
  is_def n s = false -> lookup n (macros s) = None.
Proof.
  unfold is_def, defined. destruct (lookup n (macros s));
    [discriminate | reflexivity].
Qed.

(** The macro of [f] behind the macro section, when [f] was no macro
    before it. *)
Lemma lookup_fn_macros_section (f : PlatFn) (s : TransUnit) :
  is_def (fn_name f) s = false ->
  lookup (fn_name f) (macros (macros_section s)) =
  if stub_macros (defines_of (macros s)) && declared (defines_of (macros s)) f
  then Some (stub_expr f) else None.
Proof.
  intros Hf. unfold macros_section, stub_macros, defines_of, declared.
  cbn [USE_TCL_STUBS USE_TCL_STUB_PROCS WIN MAC_OSX_TCL].
  change (defined "USE_TCL_STUBS" (macros s)) with (is_def "USE_TCL_STUBS" s).
  change (defined "USE_TCL_STUB_PROCS" (macros s))
    with (is_def "USE_TCL_STUB_PROCS" s).
  change (defined "__WIN32__" (macros s) || defined "__CYGWIN__" (macros s))
    with (win s).
  change (defined "MAC_OSX_TCL" (macros s)) with (is_def "MAC_OSX_TCL" s).
  destruct (is_def "USE_TCL_STUBS" s && negb (is_def "USE_TCL_STUB_PROCS" s));
    cbn [andb]; [|apply lookup_undefined; exact Hf].
  destruct (win s) eqn:Hw.
  - rewrite !is_def_stub_macro by names.
    destruct (is_def "MAC_OSX_TCL" s) eqn:Hm; destruct f;
      rewrite ?lookup_stub_macro by names;
      first [ apply lookup_own_stub_macro;
              rewrite ?is_def_stub_macro by names; exact Hf
            | apply lookup_undefined; exact Hf ].
  - destruct (is_def "MAC_OSX_TCL" s) eqn:Hm; destruct f;
      rewrite ?lookup_stub_macro by names;
      first [ apply lookup_own_stub_macro;
              rewrite ?is_def_stub_macro by names; exact Hf
            | apply lookup_undefined; exact Hf ].
Qed.

(** The state in which the macro section is read. *)
Lemma lookup_before_macros (n : string) (s : TransUnit) :
  n <> "_TCLPLATDECLS" -> n <> "TCL_STORAGE_CLASS" ->
  n <> "_TCHAR_DEFINED" -> (forall f, n <> declared_flag f) ->
  lookup n
    (macros (extern_C_close (struct_section (prototypes_section
       (extern_C_open (tchar_section (storage_class_section
          (def "_TCLPLATDECLS" "" s)))))))) =
  lookup n (macros s).
Proof.
  intros H1 H2 H3 H4.
  rewrite macros_extern_C_close, macros_struct_section.
  rewrite lookup_prototypes_section by exact H4.
  apply lookup_before_prototypes; assumption.
Qed.

Lemma lookup_fn_include_first (e : Macros) (f : PlatFn) :
  defined "_TCLPLATDECLS" e = false ->
  defined (fn_name f) e = false ->
  lookup (fn_name f) (macros (include_first e)) =
  if stub_macros (defines_of e) && declared (defines_of e) f
  then Some (stub_expr f) else None.
Proof.
  intros Hg Hf. unfold include_first, tclPlatDecls_h, is_def.
  cbn [macros]. rewrite Hg. cbv zeta.
  rewrite lookup_restore_storage_class by (destruct f; names).
  rewrite lookup_fn_macros_section.
  - unfold stub_macros, declared, defines_of, defined.
    cbn [USE_TCL_STUBS USE_TCL_STUB_PROCS WIN MAC_OSX_TCL].
    rewrite !lookup_before_macros by names. reflexivity.
  - unfold is_def, defined.
    rewrite lookup_before_macros by (destruct f; names). exact Hf.
Qed.

(** X11.  The header makes a function a macro exactly where the model of
    the calls takes the call to go through the table: behind the header a
    function that was no macro before is the macro
    [(tclPlatStubsPtr->tcl_f)] if [call_form] says [StubDispatched], and
    no macro if it says [DirectLinked]. *)
Theorem stub_macro_matches_call_form (e : Macros) (f : PlatFn) :
  defined "_TCLPLATDECLS" e = false ->
  defined (fn_name f) e = false ->
  lookup (fn_name f) (macros (include_first e)) =
  match call_form (defines_of e) f with
  | StubDispatched => Some (stub_expr f)
  | DirectLinked => None
  end.
Proof.
  intros Hg Hf. rewrite lookup_fn_include_first by assumption.
  unfold call_form.
  destruct (stub_macros (defines_of e) && declared (defines_of e) f);
    reflexivity.
Qed.

Lemma In_members (d : Defines) (f : PlatFn) :
  declared d f = true -> In f (members d).
Proof.
  unfold members; destruct d as [win mac stubs procs], f; cbn;
    intros ->; cbn; auto; destruct win; cbn; auto.
Qed.


End HeaderMacros.


Section HeaderFrame.

Import PlatDecls PlatDeclsHeader.

Lemma tchar_section_keeps (n b : string) (s : TransUnit) :
  lookup n (macros s) = Some b ->
  lookup n (macros (tchar_section s)) = Some b.
Proof.
  intros H; unfold tchar_section.
  destruct (is_def "_TCHAR_DEFINED" s) eqn:Ht;
    [rewrite andb_false_r; exact H|].
  destruct (_ && _); [|exact H].
  destruct (is_def "_UNICODE" s); apply lookup_def_guarded; assumption.
Qed.

Lemma declare_keeps (f : PlatFn) (n b : string) (s : TransUnit) :
  lookup n (macros s) = Some b ->
  lookup n (macros (declare f s)) = Some b.
Proof.
  intros H; unfold declare.
  destruct (is_def (declared_flag f) s) eqn:Hf; [exact H|].
  rewrite lookup_emit. apply lookup_def_guarded; assumption.
Qed.

Lemma prototypes_section_keeps (n b : string) (s : TransUnit) :
  lookup n (macros s) = Some b ->
  lookup n (macros (prototypes_section s)) = Some b.
Proof.
  intros H; unfold prototypes_section.
  destruct (win s); destruct (is_def "MAC_OSX_TCL" _);
    repeat apply declare_keeps; exact H.
Qed.

Lemma stub_macro_keeps (f : PlatFn) (n b : string) (s : TransUnit) :
  lookup n (macros s) = Some b ->
  lookup n (macros (stub_macro f s)) = Some b.
Proof.
  intros H; unfold stub_macro.
  destruct (is_def (fn_name f) s) eqn:Hf; [exact H|].
  apply lookup_def_guarded; assumption.
Qed.

Lemma macros_section_keeps (n b : string) (s : TransUnit) :
  lookup n (macros s) = Some b ->
  lookup n (macros (macros_section s)) = Some b.
Proof.
  intros H; unfold macros_section.
  destruct (_ && _); [|exact H].
  destruct (win s); destruct (is_def "MAC_OSX_TCL" _);
    repeat apply stub_macro_keeps; exact H.
Qed.

(** X13.  The header takes no macro away from the unit that includes it
    and changes none, [TCL_STORAGE_CLASS] apart: a macro defined before
    the header has the same replacement text behind it.  In particular a
    function name that is a macro already stays that macro. *)
Theorem macros_kept_by_header (n b : string) (s : TransUnit) :
  n <> "TCL_STORAGE_CLASS" ->
  lookup n (macros s) = Some b ->
  lookup n (macros (tclPlatDecls_h s)) = Some b.
Proof.
  intros Hn H. unfold tclPlatDecls_h.
  destruct (is_def "_TCLPLATDECLS" s) eqn:Hg; [exact H|]. cbv zeta.
  rewrite lookup_restore_storage_class by exact Hn.
  apply macros_section_keeps.
  rewrite macros_extern_C_close, macros_struct_section.
  apply prototypes_section_keeps.
  rewrite macros_extern_C_open.
  apply tchar_section_keeps.
  rewrite lookup_storage_class_section by exact Hn.
  apply lookup_def_guarded; assumption.
Qed.

End HeaderFrame.

(** * The header and the further theorems at concrete inputs *)

Example header_on_win_extension :
  PlatDeclsHeader.include_first win_extension_macros =
  {| PlatDeclsHeader.macros :=
       [("TCL_STORAGE_CLASS", "DLLIMPORT");
        ("Tcl_WinTCharToUtf", "(tclPlatStubsPtr->tcl_WinTCharToUtf)");
        ("Tcl_WinUtfToTChar", "(tclPlatStubsPtr->tcl_WinUtfToTChar)");
        ("Tcl_WinTCharToUtf_TCL_DECLARED", "");
        ("Tcl_WinUtfToTChar_TCL_DECLARED", "");
        ("_TCHAR_DEFINED", "");
        ("_TCLPLATDECLS", "");
        ("USE_TCL_STUBS", ""); ("__WIN32__", ""); ("_WIN32", "")];
     PlatDeclsHeader.decls :=
       [PlatDeclsHeader.Typedef_TCHAR "char";
        PlatDeclsHeader.Prototype PlatDecls.Tcl_WinUtfToTChar (Some "");
        PlatDeclsHeader.Prototype PlatDecls.Tcl_WinTCharToUtf (Some "");
        PlatDeclsHeader.Struct_TclPlatStubs
          [PlatDecls.Tcl_WinUtfToTChar; PlatDecls.Tcl_WinTCharToUtf];
        PlatDeclsHeader.Extern_tclPlatStubsPtr] |}.
Proof. reflexivity. Qed.

Lemma storage_class_of_header_witness :
  PlatDeclsHeader.defined "_TCLPLATDECLS" win_extension_macros = false /\
  PlatDeclsHeader.lookup "TCL_STORAGE_CLASS"
    (PlatDeclsHeader.macros
       (PlatDeclsHeader.include_first win_extension_macros)) =
  Some "DLLIMPORT".
Proof.
  split; [reflexivity|].
  apply (storage_class_of_header win_extension_macros). reflexivity.
Defined.

Lemma TCHAR_declared_before_use_witness :
  PlatDeclsHeader.defined "_TCLPLATDECLS" win_extension_macros = false /\
  PlatDeclsHeader.defined "_WIN32" win_extension_macros = true /\
  PlatDeclsHeader.TCHAR_known_at_uses false
    (PlatDeclsHeader.decls
       (PlatDeclsHeader.include_first win_extension_macros)) = true.
Proof.
  split; [reflexivity|]. split; [reflexivity|].
  apply (TCHAR_declared_before_use win_extension_macros);
    [reflexivity | intros _; reflexivity].
Defined.

Lemma TCHAR_used_undeclared_witness :
  PlatDeclsHeader.defined "__WIN32__" odd_win_macros = true /\
  PlatDeclsHeader.TCHAR_known_at_uses false
    (PlatDeclsHeader.decls (PlatDeclsHeader.include_first odd_win_macros)) =
  false.
Proof.
  split; [reflexivity|].
  apply (TCHAR_used_undeclared odd_win_macros); reflexivity.
Defined.

Lemma stub_macro_matches_call_form_witness :
  PlatDeclsHeader.lookup "Tcl_WinUtfToTChar"
    (PlatDeclsHeader.macros
       (PlatDeclsHeader.include_first win_extension_macros)) =
  Some "(tclPlatStubsPtr->tcl_WinUtfToTChar)".
Proof.
  apply (stub_macro_matches_call_form win_extension_macros
           PlatDecls.Tcl_WinUtfToTChar); reflexivity.
Defined.


Lemma macros_kept_by_header_witness :
  PlatDeclsHeader.lookup "__WIN32__"
    (PlatDeclsHeader.macros
       (PlatDeclsHeader.include_first win_extension_macros)) = Some "".
Proof.
  apply (macros_kept_by_header "__WIN32__" ""
           {| PlatDeclsHeader.macros := win_extension_macros;
              PlatDeclsHeader.decls := [] |});
    [discriminate | reflexivity].
Defined.

Lemma Tcl_AppInit_no_rollback_witness :
  registrations
    (trace (Tcl_AppInit
              (sample_library (PackageInitProc_eqb TclObjTest_Init) true false)
              test_build tt [])) = [Tcltest_registration] /\
  returned
    (Tcl_AppInit
       (sample_library (PackageInitProc_eqb TclObjTest_Init) true false)
       test_build tt []) = Some 1.
Proof.
  split;
    apply (Tcl_AppInit_no_rollback
             (sample_library (PackageInitProc_eqb TclObjTest_Init) true false)
             test_build tt []
             [Ev_Init Tcl_Init tt 0; Ev_Init Tclxttest_Init tt 0;
              Ev_Init Tcltest_Init tt 0;
              Ev_StaticPackage tt "Tcltest" (Some Tcltest_Init) None]
             [] TclObjTest_Init tt); reflexivity.
Defined.

Lemma Tcl_AppInit_registrations_witness :
  registrations (trace (Tcl_AppInit healthy_library test_build tt [])) =
  [Tcltest_registration; procbodytest_registration].
Proof.
  apply (Tcl_AppInit_registrations healthy_library test_build tt []);
    [reflexivity | apply inits_succeededb_sound; reflexivity].
Defined.

Lemma main_with_hook_witness :
  trace (main healthy_library hooked_build 3 ["tclsh"; "-x"; "f.tcl"] []) =
  [Ev_XtToolkitInitialize;
   Ev_MainHook "My_MainHook" 3 ["tclsh"; "-x"; "f.tcl"] 0;
   Ev_Main 2 ["-x"; "f.tcl"] "My_AppInit"].
Proof.
  apply (main_with_hook healthy_library hooked_build
           3 ["tclsh"; "-x"; "f.tcl"] [] "My_MainHook" 0 2 ["-x"; "f.tcl"] []);
    reflexivity.
Defined.

Lemma xt_test_without_tcl_test_witness :
  init_calls (trace (Tcl_AppInit healthy_library hooked_build tt [])) =
  [Tcl_Init].
Proof.
  apply (xt_test_without_tcl_test healthy_library hooked_build
           0 [] [] tt []); reflexivity.
Defined.

Lemma member_at_ordinal_witness :
  nth_error (PlatDecls.members win_stubs_defines)
    (PlatDecls.ordinal PlatDecls.Tcl_WinTCharToUtf) =
  Some PlatDecls.Tcl_WinTCharToUtf.
Proof.
  apply (member_at_ordinal win_stubs_defines PlatDecls.Tcl_WinTCharToUtf);
    reflexivity.
Defined.
